(** * ReflectaFunctions: the function table, the parameter stack and the
      frame interpreter of [ReflectaFunctions.cpp], embedded in Rocq.

    Every global of the namespace [reflectaFunctions] is a field of the
    record [State]; every function of the file is a state transformer with
    the name it has in the source.  Calls into the transport layer
    ([reflectaFrames::sendError], [reflectaFrames::sendFrame]) append to the
    log [sent]. *)

From stdpp Require Import base list strings sorting.

Local Open Scope Z_scope.

(** ** Machine integers *)

(** [byte] is [uint8_t]; the stack stores [int8_t]; [pop16] returns
    [int16_t].  Conversions between them wrap around. *)
Definition to_byte (z : Z) : Z := z mod 256.
Definition to_int8 (z : Z) : Z := (z + 128) mod 256 - 128.
Definition to_int16 (z : Z) : Z := (z + 32768) mod 65536 - 32768.

Definition is_byte (z : Z) : Prop := 0 <= z <= 255.
Definition is_int8 (z : Z) : Prop := -128 <= z <= 127.
Definition is_int16 (z : Z) : Prop := -32768 <= z <= 32767.

(** ** C arrays

    A C array is a list of its declared length, indexed by a [Z].  An index
    outside the array is undefined behaviour in the source; here such a read
    yields the default and such a write is dropped.  The theorems below carry
    the bounds under which no access leaves its array. *)
Definition aget {A} (d : A) (l : list A) (i : Z) : A :=
  if 0 <=? i then default d (l !! Z.to_nat i) else d.

Definition aset {A} (l : list A) (i : Z) (v : A) : list A :=
  if 0 <=? i then <[Z.to_nat i := v]> l else l.

(** ** Function pointers, errors and the transport log *)

(** The values a slot of [vtable] can hold: the four functions of this file
    that [setup] installs, and the functions other libraries hand to [bind],
    told apart by a number. *)
Inductive Fn : Type :=
  | FnPushArray
  | FnQueryInterface
  | FnSendResponse
  | FnSendResponseCount
  | FnNative (n : nat).

(** The error codes passed to [reflectaFrames::sendError]. *)
Inductive ErrorCode : Type :=
  | FUNCTIONS_ERROR_FRAME_TOO_SMALL
  | FUNCTIONS_ERROR_FUNCTION_CONFLICT
  | FUNCTIONS_ERROR_FUNCTION_NOT_FOUND
  | FUNCTIONS_ERROR_STACK_OVERFLOW
  | FUNCTIONS_ERROR_STACK_UNDERFLOW.

Inductive Event : Type :=
  | SendError (code : ErrorCode)
  | SendFrame (frame : list Z).

(** ** The globals *)

Definition maximumInterfaces : Z := 25.
Definition parameterStackMax : Z := 128.

Record State : Type := mkState {
  openFunctionIndex : Z;            (* byte *)
  vtable : list (option Fn);        (* 255 function pointers, None is NULL *)
  indexOfInterfaces : Z;            (* byte *)
  interfaceIds : list string;       (* String interfaceIds[25] *)
  interfaceStart : list Z;          (* byte interfaceStart[25] *)
  callerSequence : Z;               (* byte *)
  parameterStackTop : Z;            (* int *)
  parameterStack : list Z;          (* int8_t parameterStack[129] *)
  execution : Z;                    (* byte pointer, as an address *)
  frameTop : Z;                     (* byte pointer, as an address *)
  memory : Z -> Z;                  (* the bytes the two pointers point into *)
  sent : list Event;                (* calls to sendError and sendFrame, oldest first *)
  reads : list Z                    (* addresses read through [execution], oldest first *)
}.

(** The state after static initialisation: every pointer of [vtable] is
    NULL, the stack is empty. *)
Definition initial (mem : Z -> Z) : State :=
  {| openFunctionIndex := 4;
     vtable := replicate 255 None;
     indexOfInterfaces := 0;
     interfaceIds := replicate 25 EmptyString;
     interfaceStart := replicate 25 0;
     callerSequence := 0;
     parameterStackTop := -1;
     parameterStack := replicate 129 0;
     execution := 0;
     frameTop := 0;
     memory := mem;
     sent := [];
     reads := [] |}.

(** Field updates. *)
Definition set_sent (v : list Event) (s : State) : State :=
  mkState (openFunctionIndex s) (vtable s) (indexOfInterfaces s) (interfaceIds s)
    (interfaceStart s) (callerSequence s) (parameterStackTop s) (parameterStack s)
    (execution s) (frameTop s) (memory s) v (reads s).

Definition set_stack (top : Z) (stack : list Z) (s : State) : State :=
  mkState (openFunctionIndex s) (vtable s) (indexOfInterfaces s) (interfaceIds s)
    (interfaceStart s) (callerSequence s) top stack
    (execution s) (frameTop s) (memory s) (sent s) (reads s).

Definition set_execution (v : Z) (s : State) : State :=
  mkState (openFunctionIndex s) (vtable s) (indexOfInterfaces s) (interfaceIds s)
    (interfaceStart s) (callerSequence s) (parameterStackTop s) (parameterStack s)
    v (frameTop s) (memory s) (sent s) (reads s).

Definition set_reads (v : list Z) (s : State) : State :=
  mkState (openFunctionIndex s) (vtable s) (indexOfInterfaces s) (interfaceIds s)
    (interfaceStart s) (callerSequence s) (parameterStackTop s) (parameterStack s)
    (execution s) (frameTop s) (memory s) (sent s) v.

Definition set_interfaces (n : Z) (ids : list string) (starts : list Z) (s : State) : State :=
  mkState (openFunctionIndex s) (vtable s) n ids starts
    (callerSequence s) (parameterStackTop s) (parameterStack s)
    (execution s) (frameTop s) (memory s) (sent s) (reads s).

Definition set_vtable (v : list (option Fn)) (s : State) : State :=
  mkState (openFunctionIndex s) v (indexOfInterfaces s) (interfaceIds s)
    (interfaceStart s) (callerSequence s) (parameterStackTop s) (parameterStack s)
    (execution s) (frameTop s) (memory s) (sent s) (reads s).

Definition set_openFunctionIndex (v : Z) (s : State) : State :=
  mkState v (vtable s) (indexOfInterfaces s) (interfaceIds s)
    (interfaceStart s) (callerSequence s) (parameterStackTop s) (parameterStack s)
    (execution s) (frameTop s) (memory s) (sent s) (reads s).

Definition set_frame (exec seq top : Z) (s : State) : State :=
  mkState (openFunctionIndex s) (vtable s) (indexOfInterfaces s) (interfaceIds s)
    (interfaceStart s) seq (parameterStackTop s) (parameterStack s)
    exec top (memory s) (sent s) (reads s).

(** [reflectaFrames::sendError] and [reflectaFrames::sendFrame]: the call is
    recorded, nothing else changes. *)
Definition sendError (code : ErrorCode) (s : State) : State :=
  set_sent (sent s ++ [SendError code]) s.

Definition sendFrame (frame : list Z) (s : State) : State :=
  set_sent (sent s ++ [SendFrame frame]) s.

(** ** The parameter stack *)

(** [void push(int8_t b)]: the argument is converted to [int8_t] on the way
    in. *)
Definition push (b : Z) (s : State) : State :=
  if parameterStackTop s =? parameterStackMax then
    sendError FUNCTIONS_ERROR_STACK_OVERFLOW s
  else
    let top := parameterStackTop s + 1 in
    set_stack top (aset (parameterStack s) top (to_int8 b)) s.

(** [void push16(int16_t w)] *)
Definition push16 (w : Z) (s : State) : State :=
  if parameterStackTop s >? parameterStackMax - 2 then
    sendError FUNCTIONS_ERROR_STACK_OVERFLOW s
  else
    let top1 := parameterStackTop s + 1 in
    let stack1 := aset (parameterStack s) top1 (to_int8 (Z.shiftr w 8)) in
    let top2 := top1 + 1 in
    set_stack top2 (aset stack1 top2 (to_int8 (Z.land w 255))) s.

(** [int8_t pop()] *)
Definition pop (s : State) : Z * State :=
  if parameterStackTop s =? -1 then
    (-1, sendError FUNCTIONS_ERROR_STACK_UNDERFLOW s)
  else
    (aget 0 (parameterStack s) (parameterStackTop s),
     set_stack (parameterStackTop s - 1) (parameterStack s) s).

(** [int16_t pop16()].  The two operands of [+] are taken left to right: the
    first [parameterStackTop--] reads the byte pushed last, the second the
    byte below it.  Both are [int8_t] and are promoted to [int] with their
    sign; the sum is converted to [int16_t]. *)
Definition pop16 (s : State) : Z * State :=
  if (parameterStackTop s =? -1) || (parameterStackTop s =? 0) then
    (-1, sendError FUNCTIONS_ERROR_STACK_UNDERFLOW s)
  else
    let top := parameterStackTop s in
    let first := aget 0 (parameterStack s) top in
    let second := aget 0 (parameterStack s) (top - 1) in
    (to_int16 (first + Z.shiftl second 8),
     set_stack (top - 2) (parameterStack s) s).

(** ** The interface registry and [bind] *)

(** [bool knownInterface(String interfaceId)]: [index] runs from 0 while it
    is below [indexOfInterfaces]. *)
Fixpoint knownInterface_from (fuel : nat) (index : Z) (interfaceId : string)
    (s : State) : bool :=
  match fuel with
  | O => false
  | S fuel' =>
    if index <? indexOfInterfaces s then
      if String.eqb (aget EmptyString (interfaceIds s) index) interfaceId then true
      else knownInterface_from fuel' (index + 1) interfaceId s
    else false
  end.

Definition knownInterface (interfaceId : string) (s : State) : bool :=
  knownInterface_from (Z.to_nat (indexOfInterfaces s)) 0 interfaceId s.

(** [byte bind(String interfaceId, void (&function)())]: the result is the
    function id and the new state. *)
Definition bind (interfaceId : string) (function : Fn) (s : State) : Z * State :=
  let s1 :=
    if negb (knownInterface interfaceId s) then
      let n := indexOfInterfaces s in
      set_interfaces (to_byte (n + 1))
        (aset (interfaceIds s) n interfaceId)
        (aset (interfaceStart s) n (openFunctionIndex s)) s
    else s in
  let s2 :=
    match aget None (vtable s1) (openFunctionIndex s1) with
    | None => set_vtable (aset (vtable s1) (openFunctionIndex s1) (Some function)) s1
    | Some _ => sendError FUNCTIONS_ERROR_FUNCTION_CONFLICT s1
    end in
  (openFunctionIndex s2, set_openFunctionIndex (to_byte (openFunctionIndex s2 + 1)) s2).

(** A run of [bind] calls, first call first; the ids returned are dropped. *)
Definition binds (calls : list (string * Fn)) (s : State) : State :=
  foldl (fun st c => snd (bind (fst c) (snd c) st)) s calls.

(** ** Reading the frame *)

(** A read through a byte pointer: the byte at address [a], and the read
    recorded. *)
Definition deref (a : Z) (s : State) : Z * State :=
  (to_byte (memory s a), set_reads (reads s ++ [a]) s).

(** The first loop of [pushArray]: [for (int i = length - 1; i > -1; i--)
    push(execution[i])]. *)
Fixpoint pushArray_data (fuel : nat) (i : Z) (s : State) : State :=
  match fuel with
  | O => s
  | S fuel' =>
    if i >? -1 then
      let '(b, s1) := deref (execution s + i) s in
      pushArray_data fuel' (i - 1) (push b s1)
    else s
  end.

(** The second loop of [pushArray]: [execution] moves one byte per turn and
    the loop is left as soon as it is above [frameTop]. *)
Fixpoint pushArray_skip (fuel : nat) (i length : Z) (s : State) : State :=
  match fuel with
  | O => s
  | S fuel' =>
    if i <? length then
      let s1 := set_execution (execution s + 1) s in
      if execution s1 >? frameTop s1 then
        sendError FUNCTIONS_ERROR_FRAME_TOO_SMALL s1
      else pushArray_skip fuel' (i + 1) length s1
    else s
  end.

(** [void pushArray()] *)
Definition pushArray (s : State) : State :=
  let s1 :=
    if execution s =? frameTop s then sendError FUNCTIONS_ERROR_FRAME_TOO_SMALL s
    else s in
  let '(length, s2) := deref (execution s1) s1 in
  let s3 := set_execution (execution s2 + 1) s2 in
  let s4 := pushArray_data (Z.to_nat length) (length - 1) s3 in
  pushArray_skip (Z.to_nat length) 0 length s4.

(** [String::operator[]]: the character code, 0 beyond the end of the
    string. *)
Definition charAt (str : string) (i : Z) : Z :=
  if 0 <=? i then
    match String.get (Z.to_nat i) str with
    | Some c => Z.of_nat (Ascii.nat_of_ascii c)
    | None => 0
    end
  else 0.

Section Header.

(** [ReflectaFunctions.h] is not part of the sources at hand: the tag of a
    response frame and the ids of the four built-in functions are taken as
    given, and so are the functions that other libraries pass to [bind]. *)
Variable FUNCTIONS_RESPONSE : Z.
Variables FUNCTIONS_PUSHARRAY FUNCTIONS_QUERYINTERFACE : Z.
Variables FUNCTIONS_SENDRESPONSE FUNCTIONS_SENDRESPONSECOUNT : Z.
Variable native : nat -> State -> State.

(** ** Responses *)

(** [void sendResponse(byte parameterLength, byte* parameters)], the
    parameters given as the bytes behind the pointer. *)
Definition sendResponse_bytes (parameterLength : Z) (parameters : list Z)
    (s : State) : State :=
  sendFrame ([FUNCTIONS_RESPONSE; callerSequence s; parameterLength]
             ++ take (Z.to_nat parameterLength) parameters) s.

(** The loop of [sendResponseCount]: [frame[3 + i] = pop()] while
    [i < count]. *)
Fixpoint sendResponseCount_fill (fuel : nat) (i count : Z) (frame : list Z)
    (s : State) : list Z * State :=
  match fuel with
  | O => (frame, s)
  | S fuel' =>
    if i <? count then
      let '(value, s1) := pop s in
      sendResponseCount_fill fuel' (i + 1) count (aset frame (3 + i) (to_byte value)) s1
    else (frame, s)
  end.

(** [void sendResponseCount()].  [frame] is a local array of [size] bytes;
    its cells start at 0 here. *)
Definition sendResponseCount (s : State) : State :=
  let '(count, s1) := pop s in
  let size := to_byte (3 + count) in
  let frame := replicate (Z.to_nat size) 0 in
  let frame := aset frame 0 FUNCTIONS_RESPONSE in
  let frame := aset frame 1 (callerSequence s1) in
  let frame := aset frame 2 (to_byte count) in
  let '(frame, s2) := sendResponseCount_fill (Z.to_nat count) 0 count frame s1 in
  sendFrame frame s2.

(** [void sendResponse()] *)
Definition sendResponse (s : State) : State :=
  sendResponseCount (push 1 s).

(** ** [queryInterface] *)

Definition interfaceIdLength : Z := 5.

(** The inner loop: [stringIndex] runs from 4 down to 0. *)
Fixpoint queryInterface_chars (fuel : nat) (stringIndex : Z) (interfaceId : string)
    (s : State) : State :=
  match fuel with
  | O => s
  | S fuel' =>
    if stringIndex >? -1 then
      queryInterface_chars fuel' (stringIndex - 1) interfaceId
        (push (charAt interfaceId stringIndex) s)
    else s
  end.

(** The outer loop: [index] runs from 0 while it is below
    [indexOfInterfaces]. *)
Fixpoint queryInterface_entries (fuel : nat) (index : Z) (s : State) : State :=
  match fuel with
  | O => s
  | S fuel' =>
    if index <? indexOfInterfaces s then
      let s1 := queryInterface_chars (Z.to_nat interfaceIdLength) (interfaceIdLength - 1)
                  (aget EmptyString (interfaceIds s) index) s in
      queryInterface_entries fuel' (index + 1) (push (aget 0 (interfaceStart s1) index) s1)
    else s
  end.

(** [void queryInterface()] *)
Definition queryInterface (s : State) : State :=
  let s1 := queryInterface_entries (Z.to_nat (indexOfInterfaces s)) 0 s in
  sendResponseCount (push ((interfaceIdLength + 1) * indexOfInterfaces s1) s1).

(** ** The interpreter *)

(** A call through a function pointer. *)
Definition call (f : Fn) (s : State) : State :=
  match f with
  | FnPushArray => pushArray s
  | FnQueryInterface => queryInterface s
  | FnSendResponse => sendResponse s
  | FnSendResponseCount => sendResponseCount s
  | FnNative n => native n s
  end.

(** [void run(byte i)] *)
Definition run (i : Z) (s : State) : State :=
  match aget None (vtable s) i with
  | Some f => call f s
  | None => sendError FUNCTIONS_ERROR_FUNCTION_NOT_FOUND s
  end.

(** The loop of [frameReceived]: while [execution != frameTop], the byte at
    [execution] is read, [execution] moves on by one and the byte goes to
    [run].  It need not end, so it runs on fuel: [None] is a
    loop still running when the fuel is used up.  Beside the final state the
    result lists the calls of [run] in order, each as the address the id was
    read from and the id. *)
Fixpoint frameReceived_loop (fuel : nat) (s : State) : option (list (Z * Z) * State) :=
  match fuel with
  | O => None
  | S fuel' =>
    if execution s =? frameTop s then Some ([], s)
    else
      let '(i, s1) := deref (execution s) s in
      let s2 := run i (set_execution (execution s1 + 1) s1) in
      match frameReceived_loop fuel' s2 with
      | Some (calls, s3) => Some ((execution s, i) :: calls, s3)
      | None => None
      end
  end.

(** [void frameReceived(byte sequence, byte frameLength, byte* frame)] *)
Definition frameReceived (fuel : nat) (sequence frameLength frame : Z) (s : State)
    : option (list (Z * Z) * State) :=
  frameReceived_loop fuel (set_frame frame sequence (frame + frameLength) s).

(** [void setup()], on the statically initialised globals, where the
    [memset] over the NULL pointers of [vtable] changes nothing.  Handing
    [frameReceived] to the transport layer touches none of the globals. *)
Definition setup (mem : Z -> Z) : State :=
  let s := initial mem in
  let v := aset (vtable s) FUNCTIONS_PUSHARRAY (Some FnPushArray) in
  let v := aset v FUNCTIONS_QUERYINTERFACE (Some FnQueryInterface) in
  let v := aset v FUNCTIONS_SENDRESPONSE (Some FnSendResponse) in
  let v := aset v FUNCTIONS_SENDRESPONSECOUNT (Some FnSendResponseCount) in
  set_vtable v s.

End Header.

(** * Vocabulary of the properties *)

(** The array has its 129 cells and the top index is between -1 and 128. *)
Definition stack_ok (s : State) : Prop :=
  length (parameterStack s) = 129%nat /\ -1 <= parameterStackTop s <= 128.

(** The values on the stack, the top one first. *)
Definition stack_view (s : State) : list Z :=
  reverse (take (Z.to_nat (parameterStackTop s + 1)) (parameterStack s)).

(** A run of [push] calls, first call first. *)
Definition pushes (bs : list Z) (s : State) : State :=
  foldl (fun st b => push b st) s bs.

(** The registry holds the ids [seen], in the order they were registered. *)
Definition registry_ok (s : State) (seen : list string) : Prop :=
  length (interfaceIds s) = 25%nat
  /\ length (interfaceStart s) = 25%nat
  /\ indexOfInterfaces s = Z.of_nat (length seen)
  /\ take (length seen) (interfaceIds s) = seen
  /\ (length seen <= 25)%nat.

(** The bytes [queryInterface] pushes for the entry [index], in the order of
    the calls: the five characters of the id from the last to the first, then
    the start index. *)
Definition entry_pushes (ids : list string) (starts : list Z) (index : Z) : list Z :=
  [charAt (aget EmptyString ids index) 4; charAt (aget EmptyString ids index) 3;
   charAt (aget EmptyString ids index) 2; charAt (aget EmptyString ids index) 1;
   charAt (aget EmptyString ids index) 0; aget 0 starts index].

(** The bytes of the response that belong to the entry [index]: the start
    index, then the five characters of the id from the first to the last. *)
Definition interface_entry (s : State) (index : Z) : list Z :=
  to_byte (aget 0 (interfaceStart s) index)
  :: (charAt (aget EmptyString (interfaceIds s) index) <$> [0; 1; 2; 3; 4]).

(** The payload of the response: the entries from the one registered last to
    the one registered first. *)
Definition query_payload (s : State) : list Z :=
  concat (interface_entry s <$> reverse (seqZ 0 (indexOfInterfaces s))).

(** Every call made in the first [fuel] turns of the loop of
    [frameReceived] leaves [frameTop] and the memory as they are, and leaves
    [execution] at or behind the byte after the id and not above
    [frameTop]. *)
Fixpoint calls_stay_in_frame (tag : Z) (native : nat -> State -> State)
    (fuel : nat) (s : State) : Prop :=
  match fuel with
  | O => True
  | S fuel' =>
    if execution s =? frameTop s then True
    else
      let '(i, s1) := deref (execution s) s in
      let s2 := run tag native i (set_execution (execution s1 + 1) s1) in
      frameTop s2 = frameTop s /\ memory s2 = memory s
      /\ execution s + 1 <= execution s2 <= frameTop s
      /\ calls_stay_in_frame tag native fuel' s2
  end.

(** A run of [n] calls of [pop]: the values in the order they were returned,
    and the state after the last call. *)
Fixpoint pops (n : nat) (s : State) : list Z * State :=
  match n with
  | O => ([], s)
  | S n' =>
    let '(v, s1) := pop s in
    let '(vs, s2) := pops n' s1 in
    (v :: vs, s2)
  end.

(** The function table and the interface registry of [s'] are those of
    [s]. *)
Definition tables_kept (s s' : State) : Prop :=
  openFunctionIndex s' = openFunctionIndex s
  /\ vtable s' = vtable s
  /\ indexOfInterfaces s' = indexOfInterfaces s
  /\ interfaceIds s' = interfaceIds s
  /\ interfaceStart s' = interfaceStart s.

(** * Memories, constants and functions of the examples *)

(** A memory of zero bytes, for examples in which no frame is read. *)
Definition zero_memory : Z -> Z := fun _ => 0.

(** A memory that holds [frame] from address 0 on and the byte [beyond]
    everywhere else. *)
Definition frame_memory (frame : list Z) (beyond : Z) : Z -> Z :=
  fun a => aget beyond frame a.

(** Modelled from the spec: [ReflectaFunctions.h] is not among the sources.
    The spec reserves the ids 0 to 3 for the built-in functions and lists
    them as QueryInterface, PushArray, SendResponse, SendResponseCount; the
    source calls QueryInterface function id 0.  The examples use the ids in
    this order. *)
Definition example_setup : State := setup 1 0 2 3 zero_memory.

(** Modelled from the spec: the tag of a response frame is a fixed byte
    whose value the spec leaves open; the examples use 125. *)
Definition example_tag : Z := 125.

(** No function of another library is bound. *)
Definition no_natives : nat -> State -> State := fun _ s => s.

(** A bound function that moves [execution] back by one byte. *)
Definition rewind : nat -> State -> State :=
  fun _ s => set_execution (execution s - 1) s.

(** * States of the examples *)

(** The stack after 129 pushes of the byte 7: every cell is in use. *)
Definition full_stack : State := pushes (replicate 129 7) (initial zero_memory).

(** Three functions in two interfaces, as a library would bind them. *)
Definition two_interfaces : list (string * Fn) :=
  [("AAAA1"%string, FnNative 0); ("AAAA1"%string, FnNative 1);
   ("BBBB1"%string, FnNative 2)].

(** The state after [setup] and the three [bind] calls of
    [two_interfaces]: "AAAA1" starts at 4 and "BBBB1" at 6. *)
Definition two_interfaces_bound : State := binds two_interfaces example_setup.

(** The state [setup] leaves, with slot 4 of [vtable] already taken. *)
Definition slot_4_taken : State :=
  set_vtable (aset (vtable example_setup) 4 (Some (FnNative 7)))
    example_setup.

(** [execution] at the start of the four bytes 3, 0x10, 0x20, 0x30, which
    end the frame. *)
Definition three_byte_array : State :=
  set_frame 0 0 4 (initial (frame_memory [3; 16; 32; 48] 0)).

(** The frame PushArray, 3, 0x10 at address 0: the length byte announces
    three bytes and one is left before [frameTop].  The memory behind the
    frame holds the byte 9, an id no function is bound to. *)
Definition short_frame_memory : Z -> Z := frame_memory [1; 3; 16] 9.

(** [pushArray] is entered with [execution] at the length byte. *)
Definition short_frame : State :=
  set_frame 1 0 3 (setup 1 0 2 3 short_frame_memory).

(** The frame PushArray, 2, 0x10, 0x20, QueryInterface at address 0. *)
Definition array_then_query : State :=
  setup 1 0 2 3 (frame_memory [1; 2; 16; 32; 0] 0).

(** The state after [setup] and one [bind], which puts [FnNative 0] at id 4;
    the memory holds the one byte frame 4 at address 0. *)
Definition rewind_bound : State :=
  snd (bind "AAAA1" (FnNative 0) (setup 1 0 2 3 (frame_memory [4] 0))).

(** * Properties *)

(** ** Integer conversions *)

Lemma to_int8_id (z : Z) : is_int8 z -> to_int8 z = z.
Proof. unfold is_int8, to_int8. intros H. rewrite Z.mod_small; lia. Qed.

Lemma to_byte_id (z : Z) : is_byte z -> to_byte z = z.
Proof. unfold is_byte, to_byte. intros H. apply Z.mod_small. lia. Qed.

Lemma to_int16_id (z : Z) : is_int16 z -> to_int16 z = z.
Proof. unfold is_int16, to_int16. intros H. rewrite Z.mod_small; lia. Qed.

Lemma to_int8_range (z : Z) : is_int8 (to_int8 z).
Proof.
  unfold is_int8, to_int8.
  pose proof (Z.mod_pos_bound (z + 128) 256). lia.
Qed.

Lemma to_byte_range (z : Z) : is_byte (to_byte z).
Proof. unfold is_byte, to_byte. pose proof (Z.mod_pos_bound z 256). lia. Qed.

Lemma to_byte_to_int8 (z : Z) : to_byte (to_int8 z) = to_byte z.
Proof.
  unfold to_byte, to_int8.
  rewrite Zminus_mod_idemp_l. f_equal. lia.
Qed.

(** ** Arrays *)

Lemma length_aset {A} (l : list A) (i : Z) (v : A) : length (aset l i v) = length l.
Proof. unfold aset. destruct (0 <=? i); [apply length_insert | reflexivity]. Qed.

Lemma aget_aset_eq {A} (d : A) (l : list A) (i : Z) (v : A) :
  0 <= i < Z.of_nat (length l) -> aget d (aset l i v) i = v.
Proof.
  intros H. unfold aget, aset.
  destruct (Z.leb_spec 0 i); [|lia].
  rewrite list_lookup_insert_eq; [reflexivity | lia].
Qed.

Lemma aget_aset_ne {A} (d : A) (l : list A) (i j : Z) (v : A) :
  i <> j -> aget d (aset l i v) j = aget d l j.
Proof.
  intros H. unfold aget, aset.
  destruct (Z.leb_spec 0 j); [|reflexivity].
  destruct (Z.leb_spec 0 i); [|reflexivity].
  rewrite list_lookup_insert_ne; [reflexivity | lia].
Qed.

Lemma aget_lookup {A} (d : A) (l : list A) (i : Z) (v : A) :
  0 <= i -> l !! Z.to_nat i = Some v -> aget d l i = v.
Proof.
  intros H Hv. unfold aget.
  destruct (Z.leb_spec 0 i); [|lia]. rewrite Hv. reflexivity.
Qed.

(** ** The parameter stack *)

Lemma stack_ok_initial (mem : Z -> Z) : stack_ok (initial mem).
Proof. split; simpl; [reflexivity | lia]. Qed.

Lemma stack_view_length (s : State) :
  stack_ok s -> Z.of_nat (length (stack_view s)) = parameterStackTop s + 1.
Proof.
  intros [Hlen Htop]. unfold stack_view.
  rewrite length_reverse, length_take, Hlen. lia.
Qed.

(** [push] on a stack that is not full. *)
Lemma push_room (b : Z) (s : State) :
  parameterStackTop s <> 128 ->
  push b s = set_stack (parameterStackTop s + 1)
               (aset (parameterStack s) (parameterStackTop s + 1) (to_int8 b)) s.
Proof.
  intros H. unfold push, parameterStackMax.
  destruct (Z.eqb_spec (parameterStackTop s) 128); [lia | reflexivity].
Qed.

(** [push] on a full stack. *)
Lemma push_full (b : Z) (s : State) :
  parameterStackTop s = 128 ->
  push b s = sendError FUNCTIONS_ERROR_STACK_OVERFLOW s.
Proof. intros H. unfold push, parameterStackMax. rewrite H. reflexivity. Qed.

Lemma stack_view_push (v : Z) (s : State) :
  stack_ok s -> parameterStackTop s < 128 ->
  stack_view (set_stack (parameterStackTop s + 1)
                (aset (parameterStack s) (parameterStackTop s + 1) v) s)
  = v :: stack_view s.
Proof.
  intros [Hlen Htop] Hroom. unfold stack_view, aset. simpl.
  destruct (Z.leb_spec 0 (parameterStackTop s + 1)); [|lia].
  replace (Z.to_nat (parameterStackTop s + 1 + 1))
    with (S (Z.to_nat (parameterStackTop s + 1))) by lia.
  rewrite (take_S_r _ _ v).
  - rewrite take_insert_ge by lia. apply reverse_snoc.
  - apply list_lookup_insert_eq. lia.
Qed.

Lemma stack_ok_push (b : Z) (s : State) : stack_ok s -> stack_ok (push b s).
Proof.
  intros [Hlen Htop]. unfold push, parameterStackMax.
  destruct (Z.eqb_spec (parameterStackTop s) 128).
  - split; simpl; [exact Hlen | lia].
  - split; simpl; [rewrite length_aset; exact Hlen | lia].
Qed.

(** [pop] on a stack that is not empty. *)
Lemma pop_some (s : State) :
  parameterStackTop s <> -1 ->
  pop s = (aget 0 (parameterStack s) (parameterStackTop s),
           set_stack (parameterStackTop s - 1) (parameterStack s) s).
Proof.
  intros H. unfold pop.
  destruct (Z.eqb_spec (parameterStackTop s) (-1)); [lia | reflexivity].
Qed.

Lemma stack_view_top (s : State) (v : Z) (rest : list Z) :
  stack_ok s -> stack_view s = v :: rest ->
  0 <= parameterStackTop s
  /\ aget 0 (parameterStack s) (parameterStackTop s) = v
  /\ stack_view (set_stack (parameterStackTop s - 1) (parameterStack s) s) = rest.
Proof.
  intros [Hlen Htop] Hview.
  assert (Hpos : 0 <= parameterStackTop s).
  { destruct (Z.eq_dec (parameterStackTop s) (-1)) as [e|]; [|lia].
    unfold stack_view in Hview. rewrite e in Hview. discriminate. }
  split; [exact Hpos|].
  unfold stack_view in *. simpl.
  replace (Z.to_nat (parameterStackTop s + 1))
    with (S (Z.to_nat (parameterStackTop s))) in Hview by lia.
  replace (Z.to_nat (parameterStackTop s - 1 + 1))
    with (Z.to_nat (parameterStackTop s)) by lia.
  destruct (lookup_lt_is_Some_2 (parameterStack s) (Z.to_nat (parameterStackTop s)))
    as [x Hx]; [lia|].
  rewrite (take_S_r _ _ x Hx), reverse_snoc in Hview.
  injection Hview as -> Hrest.
  split; [apply aget_lookup; assumption | exact Hrest].
Qed.

(** [pop] takes the first value of the view. *)
Lemma pop_view (s : State) (v : Z) (rest : list Z) :
  stack_ok s -> stack_view s = v :: rest ->
  pop s = (v, set_stack (parameterStackTop s - 1) (parameterStack s) s)
  /\ stack_ok (snd (pop s))
  /\ stack_view (snd (pop s)) = rest.
Proof.
  intros Hok Hview.
  destruct (stack_view_top s v rest Hok Hview) as (Hpos & Hget & Hrest).
  rewrite pop_some by lia. rewrite Hget. simpl.
  split; [reflexivity|]. split; [|exact Hrest].
  destruct Hok as [Hlen Htop]. split; simpl; [exact Hlen | lia].
Qed.

(** A run of pushes that fits: no call into the transport layer, and the
    values end up on the stack, the last one pushed on top. *)
Lemma pushes_room (bs : list Z) (s : State) :
  stack_ok s ->
  parameterStackTop s + Z.of_nat (length bs) <= 128 ->
  exists stack,
    pushes bs s = set_stack (parameterStackTop s + Z.of_nat (length bs)) stack s
    /\ stack_ok (pushes bs s)
    /\ stack_view (pushes bs s) = reverse (to_int8 <$> bs) ++ stack_view s.
Proof.
  revert s. induction bs as [|b bs IH]; intros s Hok Hroom.
  - exists (parameterStack s). simpl. rewrite Z.add_0_r.
    split; [destruct s; reflexivity|]. split; [exact Hok | reflexivity].
  - simpl in Hroom. unfold pushes. simpl. fold (pushes bs (push b s)).
    assert (Hs1 : push b s = set_stack (parameterStackTop s + 1)
              (aset (parameterStack s) (parameterStackTop s + 1) (to_int8 b)) s)
      by (apply push_room; lia).
    assert (Hok1 : stack_ok (push b s)) by (apply stack_ok_push; exact Hok).
    assert (Hview1 : stack_view (push b s) = to_int8 b :: stack_view s)
      by (rewrite Hs1; apply stack_view_push; [exact Hok | lia]).
    destruct (IH (push b s) Hok1) as (stack & Heq & Hok2 & Hview2).
    { rewrite Hs1. simpl. lia. }
    exists stack. split; [|split; [exact Hok2|]].
    + rewrite Heq, Hs1. unfold set_stack. simpl. f_equal. lia.
    + rewrite Hview2, Hview1. simpl. rewrite reverse_cons, <- app_assoc. reflexivity.
Qed.

(** [push16] on a stack with two free cells writes as two [push] calls
    would: the high byte, then the low byte. *)
Lemma push16_room (w : Z) (s : State) :
  parameterStackTop s <= 126 ->
  push16 w s = push (Z.land w 255) (push (Z.shiftr w 8) s).
Proof.
  intros H. unfold push16, push, parameterStackMax. simpl.
  destruct (Z.gtb_spec (parameterStackTop s) (128 - 2)); [lia|].
  destruct (Z.eqb_spec (parameterStackTop s) 128); [lia|]. simpl.
  destruct (Z.eqb_spec (parameterStackTop s + 1) 128); [lia|].
  reflexivity.
Qed.

Lemma push16_full (w : Z) (s : State) :
  126 < parameterStackTop s ->
  push16 w s = sendError FUNCTIONS_ERROR_STACK_OVERFLOW s.
Proof.
  intros H. unfold push16, parameterStackMax.
  destruct (Z.gtb_spec (parameterStackTop s) (128 - 2)); [reflexivity | lia].
Qed.

(** [pop16] on a stack with two values on top. *)
Lemma pop16_view (s : State) (v1 v2 : Z) (rest : list Z) :
  stack_ok s -> stack_view s = v1 :: v2 :: rest ->
  pop16 s = (to_int16 (v1 + Z.shiftl v2 8),
             set_stack (parameterStackTop s - 2) (parameterStack s) s)
  /\ stack_view (snd (pop16 s)) = rest.
Proof.
  intros Hok Hview.
  destruct (stack_view_top s v1 (v2 :: rest) Hok Hview) as (Hpos & Hget & Hrest).
  assert (Hok1 : stack_ok (set_stack (parameterStackTop s - 1) (parameterStack s) s)).
  { destruct Hok as [Hlen Htop]. split; simpl; [exact Hlen | lia]. }
  destruct (stack_view_top _ v2 rest Hok1 Hrest) as (Hpos2 & Hget2 & Hrest2).
  simpl in Hpos2, Hget2, Hrest2.
  unfold pop16.
  destruct (Z.eqb_spec (parameterStackTop s) (-1)); [lia|].
  destruct (Z.eqb_spec (parameterStackTop s) 0); [lia|].
  simpl. rewrite Hget, Hget2.
  replace (parameterStackTop s - 2) with (parameterStackTop s - 1 - 1) by lia.
  split; [reflexivity | exact Hrest2].
Qed.

(** The value [pop16] rebuilds from the two bytes [push16] stored. *)
Lemma int16_of_stored_bytes (x : Z) :
  is_int16 x -> x mod 256 < 128 ->
  to_int16 (to_int8 (Z.land x 255) + Z.shiftl (to_int8 (Z.shiftr x 8)) 8) = x.
Proof.
  unfold is_int16. intros Hx Hlow.
  change 255 with (Z.ones 8).
  rewrite Z.land_ones by lia.
  rewrite Z.shiftr_div_pow2, Z.shiftl_mul_pow2 by lia.
  change (2 ^ 8) with 256.
  pose proof (Z.mod_pos_bound x 256).
  rewrite !to_int8_id.
  - rewrite to_int16_id.
    + pose proof (Z.div_mod x 256). lia.
    + unfold is_int16. pose proof (Z.div_mod x 256). lia.
  - unfold is_int8.
    assert (-128 <= x / 256) by (apply Z.div_le_lower_bound; lia).
    assert (x / 256 < 128) by (apply Z.div_lt_upper_bound; lia).
    lia.
  - unfold is_int8. lia.
Qed.

(** C9: [pop] on an empty stack (top index -1) makes one call
    [sendError(FUNCTIONS_ERROR_STACK_UNDERFLOW)], returns -1 and leaves the
    top index at -1; [pop16] on a stack of fewer than two values (top index
    -1 or 0) does the same and leaves the top index where it was. *)
Theorem pop_underflow (s : State) :
  -1 <= parameterStackTop s <= 0 ->
  (parameterStackTop s = -1 ->
     fst (pop s) = -1
     /\ sent (snd (pop s)) = sent s ++ [SendError FUNCTIONS_ERROR_STACK_UNDERFLOW]
     /\ parameterStackTop (snd (pop s)) = -1
     /\ parameterStack (snd (pop s)) = parameterStack s)
  /\ fst (pop16 s) = -1
  /\ sent (snd (pop16 s)) = sent s ++ [SendError FUNCTIONS_ERROR_STACK_UNDERFLOW]
  /\ parameterStackTop (snd (pop16 s)) = parameterStackTop s
  /\ parameterStack (snd (pop16 s)) = parameterStack s.
Proof.
  intros Hfew. split.
  - intros Hempty. unfold pop. rewrite Hempty. simpl. auto.
  - unfold pop16.
    destruct (Z.eqb_spec (parameterStackTop s) (-1)); simpl; auto.
    destruct (Z.eqb_spec (parameterStackTop s) 0); simpl; auto.
    lia.
Qed.

Lemma pop_underflow_witness :
  -1 <= parameterStackTop (initial zero_memory) <= 0
  /\ parameterStackTop (initial zero_memory) = -1
  /\ fst (pop (initial zero_memory)) = -1
  /\ sent (snd (pop (initial zero_memory)))
     = [SendError FUNCTIONS_ERROR_STACK_UNDERFLOW]
  /\ fst (pop16 (initial zero_memory)) = -1
  /\ sent (snd (pop16 (initial zero_memory)))
     = [SendError FUNCTIONS_ERROR_STACK_UNDERFLOW].
Proof.
  assert (H : -1 <= parameterStackTop (initial zero_memory) <= 0) by (simpl; lia).
  destruct (pop_underflow (initial zero_memory) H) as (Hpop & H1 & H2 & _).
  destruct (Hpop eq_refl) as (H3 & H4 & _).
  split; [exact H|]. split; [reflexivity|].
  split; [exact H3|]. split; [exact H4|]. split; [exact H1 | exact H2].
Defined.

(** C2, as amended: on a stack that is not full, [push(b)] followed by
    [pop()] returns [b], makes no call to [sendError] and brings the stack
    back; on a stack with at least two free cells, [push16(x)] puts the high
    byte of [x] and on top of it the low byte, a following [pop16()] takes
    both off again, and it returns [x] when the low byte of [x] is below
    128. *)
Theorem push_pop_roundtrip (s : State) (b x : Z) :
  stack_ok s -> is_int8 b -> is_int16 x ->
  (parameterStackTop s <= 127 ->
     fst (pop (push b s)) = b
     /\ sent (snd (pop (push b s))) = sent s
     /\ parameterStackTop (snd (pop (push b s))) = parameterStackTop s
     /\ stack_view (snd (pop (push b s))) = stack_view s)
  /\
  (parameterStackTop s <= 126 ->
     sent (push16 x s) = sent s
     /\ stack_view (push16 x s)
        = to_int8 (Z.land x 255) :: to_int8 (Z.shiftr x 8) :: stack_view s
     /\ sent (snd (pop16 (push16 x s))) = sent s
     /\ parameterStackTop (snd (pop16 (push16 x s))) = parameterStackTop s
     /\ stack_view (snd (pop16 (push16 x s))) = stack_view s
     /\ (x mod 256 < 128 -> fst (pop16 (push16 x s)) = x)).
Proof.
  intros Hok Hb Hx. split.
  - intros Hroom.
    destruct (pushes_room [b] s Hok) as (stack & Heq & Hok1 & Hview1);
      [simpl; lia|].
    change (pushes [b] s) with (push b s) in *.
    simpl in Hview1. rewrite to_int8_id in Hview1 by exact Hb.
    destruct (pop_view _ _ _ Hok1 Hview1) as (Hpop & _ & Hrest).
    rewrite Hpop in *. rewrite Heq in *. simpl in *.
    repeat split; [lia | exact Hrest].
  - intros Hroom.
    destruct (pushes_room [Z.shiftr x 8; Z.land x 255] s Hok)
      as (stack & Heq & Hok1 & Hview1); [simpl; lia|].
    change (pushes [Z.shiftr x 8; Z.land x 255] s)
      with (push (Z.land x 255) (push (Z.shiftr x 8) s)) in *.
    rewrite <- push16_room in * by lia.
    simpl in Hview1.
    destruct (pop16_view _ _ _ _ Hok1 Hview1) as (Hpop & Hrest).
    rewrite Hpop in *. rewrite Heq in *. simpl in *.
    repeat split; try exact Hrest; try exact Hview1; try lia.
    intros Hlow. apply int16_of_stored_bytes; assumption.
Qed.

Lemma push_pop_roundtrip_witness :
  stack_ok (initial zero_memory) /\ is_int8 (-3) /\ is_int16 (-251)
  /\ parameterStackTop (initial zero_memory) <= 126
  /\ (-251) mod 256 < 128
  /\ fst (pop (push (-3) (initial zero_memory))) = -3
  /\ fst (pop16 (push16 (-251) (initial zero_memory))) = -251.
Proof.
  assert (Hok : stack_ok (initial zero_memory)) by apply stack_ok_initial.
  assert (Hb : is_int8 (-3)) by (unfold is_int8; lia).
  assert (Hx : is_int16 (-251)) by (unfold is_int16; lia).
  assert (Hroom : parameterStackTop (initial zero_memory) <= 126) by (simpl; lia).
  assert (Hlow : (-251) mod 256 < 128) by (vm_compute; reflexivity).
  destruct (push_pop_roundtrip (initial zero_memory) (-3) (-251) Hok Hb Hx)
    as (Hpush & Hpush16).
  destruct Hpush as (H1 & _); [simpl; lia|].
  destruct (Hpush16 Hroom) as (_ & _ & _ & _ & _ & H2).
  split; [exact Hok|]. split; [exact Hb|]. split; [exact Hx|].
  split; [exact Hroom|]. split; [exact Hlow|].
  split; [exact H1 | exact (H2 Hlow)].
Defined.

(** C2, as stated, fails twice.  On a full stack [push(5)] is dropped and
    [pop()] returns the byte that was on top before.  From the empty stack
    [push16(128)] followed by [pop16()] returns -128, and [push16(-1)]
    followed by [pop16()] returns -257: [pop16] reads the low byte back as an
    [int8_t], with its sign. *)
Lemma push_pop_roundtrip_fails :
  parameterStackTop full_stack = 128
  /\ fst (pop (push 5 full_stack)) = 7
  /\ fst (pop16 (push16 128 (initial zero_memory))) = -128
  /\ fst (pop16 (push16 (-1) (initial zero_memory))) = -257.
Proof. vm_compute. repeat split; reflexivity. Qed.

(** C3, as amended: from an empty stack, 129 consecutive [push] calls make
    no call to [sendError] and fill the stack up to top index 128; the 130th
    makes exactly one call, [sendError(FUNCTIONS_ERROR_STACK_OVERFLOW)], and
    leaves the array and the top index as they were. *)
Theorem stack_overflow_on_130th_push (s : State) (bs : list Z) (b : Z) :
  stack_ok s -> parameterStackTop s = -1 -> length bs = 129%nat ->
  sent (pushes bs s) = sent s
  /\ parameterStackTop (pushes bs s) = 128
  /\ stack_view (pushes bs s) = reverse (to_int8 <$> bs)
  /\ pushes (bs ++ [b]) s = sendError FUNCTIONS_ERROR_STACK_OVERFLOW (pushes bs s)
  /\ sent (pushes (bs ++ [b]) s) = sent s ++ [SendError FUNCTIONS_ERROR_STACK_OVERFLOW]
  /\ parameterStackTop (pushes (bs ++ [b]) s) = parameterStackTop (pushes bs s)
  /\ parameterStack (pushes (bs ++ [b]) s) = parameterStack (pushes bs s).
Proof.
  intros Hok Hempty Hlen.
  destruct (pushes_room bs s Hok) as (stack & Heq & Hok1 & Hview); [lia|].
  assert (Htop : parameterStackTop (pushes bs s) = 128).
  { rewrite Heq. simpl. lia. }
  assert (Hlast : pushes (bs ++ [b]) s
                  = sendError FUNCTIONS_ERROR_STACK_OVERFLOW (pushes bs s)).
  { unfold pushes. rewrite foldl_app. simpl. apply push_full. exact Htop. }
  assert (Hsent : sent (pushes bs s) = sent s) by (rewrite Heq; reflexivity).
  assert (Hnil : stack_view s = []).
  { unfold stack_view. rewrite Hempty. reflexivity. }
  rewrite Hlast. simpl. rewrite Hsent, Hview, Hnil, app_nil_r.
  repeat split; assumption.
Qed.

Lemma stack_overflow_on_130th_push_witness :
  stack_ok (initial zero_memory)
  /\ parameterStackTop (initial zero_memory) = -1
  /\ length (replicate 129 7) = 129%nat
  /\ sent (pushes (replicate 129 7) (initial zero_memory)) = []
  /\ sent (pushes (replicate 129 7 ++ [7]) (initial zero_memory))
     = [SendError FUNCTIONS_ERROR_STACK_OVERFLOW].
Proof.
  assert (Hok : stack_ok (initial zero_memory)) by apply stack_ok_initial.
  assert (Hlen : length (replicate 129 7) = 129%nat) by reflexivity.
  destruct (stack_overflow_on_130th_push (initial zero_memory) (replicate 129 7) 7
              Hok eq_refl Hlen) as (H1 & _ & _ & _ & H2 & _).
  split; [exact Hok|]. split; [reflexivity|]. split; [exact Hlen|].
  split; [exact H1 | exact H2].
Defined.

(** C3, as stated, fails: 129 pushes from the empty stack signal no
    [STACK_OVERFLOW] at all, and the 129th moves the top index from 127 to
    128. *)
Lemma no_overflow_on_129th_push :
  sent (pushes (replicate 129 7) (initial zero_memory)) = []
  /\ parameterStackTop (pushes (replicate 128 7) (initial zero_memory)) = 127
  /\ parameterStackTop (pushes (replicate 129 7) (initial zero_memory)) = 128.
Proof. vm_compute. repeat split; reflexivity. Qed.

(** ** The interface registry *)

(** [knownInterface] finds the id exactly when one of the cells [index],
    ..., below [indexOfInterfaces] holds it. *)
Lemma knownInterface_from_true (fuel : nat) (index : Z) (interfaceId : string)
    (s : State) :
  knownInterface_from fuel index interfaceId s = true <->
  exists k, index <= k < index + Z.of_nat fuel /\ k < indexOfInterfaces s
            /\ aget EmptyString (interfaceIds s) k = interfaceId.
Proof.
  revert index. induction fuel as [|fuel IH]; intros index.
  - simpl. split; [discriminate | intros (k & Hk & _); lia].
  - cbn [knownInterface_from].
    destruct (Z.ltb_spec index (indexOfInterfaces s)) as [Hlt|Hge].
    + destruct (String.eqb_spec (aget EmptyString (interfaceIds s) index) interfaceId)
        as [Heq|Hne].
      * split; [intros _ | reflexivity]. exists index. split; [lia | auto].
      * rewrite IH. split; intros (k & Hk & Hn & Hid).
        -- exists k. split; [lia | auto].
        -- exists k. split; [|auto].
           destruct (Z.eq_dec k index) as [->|]; [contradiction | lia].
    + split; [discriminate | intros (k & Hk & Hn & _); lia].
Qed.

Lemma registry_ok_initial (mem : Z -> Z) : registry_ok (initial mem) [].
Proof. repeat split; simpl; lia. Qed.

Lemma knownInterface_seen (interfaceId : string) (s : State) (seen : list string) :
  registry_ok s seen ->
  knownInterface interfaceId s = true <-> interfaceId ∈ seen.
Proof.
  intros (Hlen & _ & Hn & Htake & Hcap). unfold knownInterface.
  rewrite knownInterface_from_true, Hn, Nat2Z.id.
  split.
  - intros (k & Hk & _ & Hid). rewrite <- Htake. apply elem_of_take.
    exists (Z.to_nat k). split; [|lia].
    destruct (lookup_lt_is_Some_2 (interfaceIds s) (Z.to_nat k)) as [x Hx]; [lia|].
    rewrite Hx. f_equal. rewrite <- Hid. symmetry. apply aget_lookup; [lia | exact Hx].
  - intros Hin. rewrite <- Htake in Hin. apply elem_of_take in Hin as (i & Hi & Hlt).
    exists (Z.of_nat i). split; [lia|]. split; [lia|].
    apply aget_lookup; [lia|]. rewrite Nat2Z.id. exact Hi.
Qed.

(** What one [bind] does to the registry and to [openFunctionIndex]. *)
Lemma bind_registry (interfaceId : string) (function : Fn) (s : State)
    (seen : list string) :
  registry_ok s seen ->
  0 <= openFunctionIndex s < 255 ->
  (interfaceId ∈ seen \/ (length seen < 25)%nat) ->
  registry_ok (snd (bind interfaceId function s))
    (if decide (interfaceId ∈ seen) then seen else seen ++ [interfaceId])
  /\ openFunctionIndex (snd (bind interfaceId function s)) = openFunctionIndex s + 1
  /\ fst (bind interfaceId function s) = openFunctionIndex s.
Proof.
  intros Hreg Hopen Hcap.
  pose proof (knownInterface_seen interfaceId s seen Hreg) as Hknown.
  destruct Hreg as (Hlen & Hlen' & Hn & Htake & Hle).
  unfold bind.
  destruct (knownInterface interfaceId s) eqn:Hk; simpl.
  - assert (Hin : interfaceId ∈ seen) by (apply Hknown; reflexivity).
    destruct (decide (interfaceId ∈ seen)); [|contradiction].
    destruct (aget None (vtable s) (openFunctionIndex s)); simpl;
      (split; [repeat split; assumption |]);
      (split; [apply to_byte_id; unfold is_byte; lia | reflexivity]).
  - assert (Hout : interfaceId ∉ seen).
    { intros Hin. apply Hknown in Hin. discriminate. }
    destruct (decide (interfaceId ∈ seen)); [contradiction|].
    destruct Hcap as [Hin | Hcap]; [contradiction|].
    assert (Hreg' : registry_ok
              (set_interfaces (to_byte (indexOfInterfaces s + 1))
                 (aset (interfaceIds s) (indexOfInterfaces s) interfaceId)
                 (aset (interfaceStart s) (indexOfInterfaces s) (openFunctionIndex s)) s)
              (seen ++ [interfaceId])).
    { repeat split; simpl.
      - rewrite length_aset. exact Hlen.
      - rewrite length_aset. exact Hlen'.
      - rewrite length_app. simpl. rewrite to_byte_id; [lia | unfold is_byte; lia].
      - rewrite length_app. simpl. unfold aset.
        destruct (Z.leb_spec 0 (indexOfInterfaces s)); [|lia].
        rewrite Hn, Nat2Z.id.
        replace (length seen + 1)%nat with (S (length seen)) by lia.
        rewrite (take_S_r _ _ interfaceId).
        + rewrite take_insert_ge by lia. rewrite Htake. reflexivity.
        + apply list_lookup_insert_eq. lia.
      - rewrite length_app. simpl. lia. }
    destruct (aget None (vtable s) (openFunctionIndex s)); simpl;
      (split; [exact Hreg' |]);
      (split; [apply to_byte_id; unfold is_byte; lia | reflexivity]).
Qed.

(** Counting distinct ids. *)
Lemma NoDup_length_le_distinct (l k : list string) :
  NoDup l -> (forall x, x ∈ l -> x ∈ k) ->
  (length l <= length (remove_dups k))%nat.
Proof.
  intros Hnd Hsub. apply submseteq_length, NoDup_submseteq; [exact Hnd|].
  intros x Hx. apply elem_of_remove_dups, Hsub, Hx.
Qed.

Lemma NoDup_length_distinct (l k : list string) :
  NoDup l -> (forall x, x ∈ l <-> x ∈ k) ->
  length l = length (remove_dups k).
Proof.
  intros Hnd Heq. apply Nat.le_antisymm.
  - apply NoDup_length_le_distinct; [exact Hnd | intros x; apply Heq].
  - apply submseteq_length, NoDup_submseteq; [apply NoDup_remove_dups|].
    intros x Hx. apply Heq. rewrite elem_of_remove_dups in Hx. exact Hx.
Qed.

(** A run of [bind] calls, from a registry holding [seen]. *)
Lemma binds_registry (calls : list (string * Fn)) :
  forall (s : State) (seen : list string),
  registry_ok s seen -> NoDup seen ->
  0 <= openFunctionIndex s ->
  openFunctionIndex s + Z.of_nat (length calls) <= 255 ->
  (length (remove_dups (seen ++ (fst <$> calls))) <= 25)%nat ->
  exists seen',
    registry_ok (binds calls s) seen' /\ NoDup seen'
    /\ (forall x, x ∈ seen' <-> x ∈ seen \/ x ∈ (fst <$> calls))
    /\ openFunctionIndex (binds calls s) = openFunctionIndex s + Z.of_nat (length calls).
Proof.
  induction calls as [|[interfaceId function] calls IH];
    intros s seen Hreg Hnd Hopen Hfit Hcap.
  - exists seen. simpl. rewrite Z.add_0_r.
    split; [exact Hreg|]. split; [exact Hnd|]. split; [|reflexivity].
    intros x. rewrite elem_of_nil. tauto.
  - simpl in Hfit.
    set (seen1 := if decide (interfaceId ∈ seen) then seen else seen ++ [interfaceId]).
    assert (Hnd1 : NoDup seen1).
    { unfold seen1. destruct (decide (interfaceId ∈ seen)); [exact Hnd|].
      apply NoDup_app. split; [exact Hnd|]. split; [|apply NoDup_singleton].
      intros x Hx Hx'. apply list_elem_of_singleton in Hx'. subst x. contradiction. }
    assert (Hel1 : forall x, x ∈ seen1 <-> x ∈ seen \/ x = interfaceId).
    { intros x. unfold seen1. destruct (decide (interfaceId ∈ seen)).
      - split; [intros H; left; exact H | intros [H| ->]; assumption].
      - rewrite elem_of_app, list_elem_of_singleton. reflexivity. }
    assert (Hsame : forall x, x ∈ seen1 ++ (fst <$> calls)
                          <-> x ∈ seen ++ (fst <$> (interfaceId, function) :: calls)).
    { intros x. rewrite !elem_of_app, Hel1. simpl. rewrite elem_of_cons. tauto. }
    assert (Hlen1 : (length seen1 <= 25)%nat).
    { etransitivity; [|exact Hcap].
      apply NoDup_length_le_distinct; [exact Hnd1|].
      intros x Hx. apply Hsame, elem_of_app. left. exact Hx. }
    destruct (bind_registry interfaceId function s seen Hreg) as (Hreg1 & Hopen1 & _).
    { lia. }
    { destruct (decide (interfaceId ∈ seen)) as [Hin|Hout]; [left; exact Hin | right].
      unfold seen1 in Hlen1. destruct (decide (interfaceId ∈ seen)); [contradiction|].
      rewrite length_app in Hlen1. simpl in Hlen1. lia. }
    fold seen1 in Hreg1.
    destruct (IH (snd (bind interfaceId function s)) seen1 Hreg1 Hnd1)
      as (seen' & Hreg' & Hnd' & Hel' & Hopen').
    { lia. }
    { lia. }
    { rewrite <- (NoDup_length_distinct (remove_dups (seen ++ (fst <$> (interfaceId, function) :: calls)))
                    (seen1 ++ (fst <$> calls))); [exact Hcap | apply NoDup_remove_dups |].
      intros x. rewrite elem_of_remove_dups. symmetry. apply Hsame. }
    exists seen'. split; [exact Hreg'|]. split; [exact Hnd'|]. split.
    + intros x. rewrite Hel', Hel1. simpl. rewrite elem_of_cons. tauto.
    + change (binds ((interfaceId, function) :: calls) s)
        with (binds calls (snd (bind interfaceId function s))).
      rewrite Hopen', Hopen1. simpl length. lia.
Qed.

(** C6, as amended: after a run of N [bind] calls on the state [setup]
    leaves, with N at most 251 and at most 25 distinct interface ids among
    them, [openFunctionIndex] is 4 + N and [indexOfInterfaces] is the number
    of distinct interface ids. *)
Theorem binds_counters (pushArrayId queryInterfaceId sendResponseId
    sendResponseCountId : Z) (mem : Z -> Z) (calls : list (string * Fn)) :
  (length calls <= 251)%nat ->
  (length (remove_dups (fst <$> calls)) <= 25)%nat ->
  openFunctionIndex
    (binds calls (setup pushArrayId queryInterfaceId sendResponseId
                    sendResponseCountId mem))
  = 4 + Z.of_nat (length calls)
  /\ indexOfInterfaces
       (binds calls (setup pushArrayId queryInterfaceId sendResponseId
                       sendResponseCountId mem))
     = Z.of_nat (length (remove_dups (fst <$> calls))).
Proof.
  intros Hn Hdistinct.
  set (s0 := setup pushArrayId queryInterfaceId sendResponseId sendResponseCountId mem).
  assert (Hreg : registry_ok s0 []) by (repeat split; simpl; lia).
  destruct (binds_registry calls s0 [] Hreg) as (seen & Hreg' & Hnd & Hel & Hopen).
  - apply NoDup_nil. exact I.
  - simpl. lia.
  - simpl. lia.
  - exact Hdistinct.
  - split; [exact Hopen|].
    destruct Hreg' as (_ & _ & Hidx & _). rewrite Hidx. f_equal.
    apply NoDup_length_distinct; [exact Hnd|].
    intros x. rewrite Hel, elem_of_nil. tauto.
Qed.

Lemma binds_counters_witness :
  (length two_interfaces <= 251)%nat
  /\ (length (remove_dups (fst <$> two_interfaces)) <= 25)%nat
  /\ openFunctionIndex (binds two_interfaces (setup 1 0 2 3 zero_memory)) = 7
  /\ indexOfInterfaces (binds two_interfaces (setup 1 0 2 3 zero_memory)) = 2.
Proof.
  assert (Hn : (length two_interfaces <= 251)%nat) by (simpl; lia).
  assert (Hd : (length (remove_dups (fst <$> two_interfaces)) <= 25)%nat)
    by (vm_compute; lia).
  destruct (binds_counters 1 0 2 3 zero_memory two_interfaces Hn Hd) as (H1 & H2).
  split; [exact Hn|]. split; [exact Hd|]. split; [exact H1 | exact H2].
Defined.

(** C6, as stated, fails for N = 252: [openFunctionIndex] is a byte, the
    252nd [bind] takes it from 255 back to 0, and 4 + 252 is 256. *)
Lemma binds_counter_wraps :
  openFunctionIndex
    (binds (replicate 251 ("AAAA1"%string, FnNative 0)) (setup 1 0 2 3 zero_memory))
  = 255
  /\ openFunctionIndex
       (binds (replicate 252 ("AAAA1"%string, FnNative 0)) (setup 1 0 2 3 zero_memory))
     = 0
  /\ 0 <> 4 + 252.
Proof. vm_compute. repeat split; try reflexivity. discriminate. Qed.

(** ** [bind] on an occupied slot *)

(** C5: when the slot of [vtable] at [openFunctionIndex] already holds a
    function, [bind] makes exactly one call
    [sendError(FUNCTIONS_ERROR_FUNCTION_CONFLICT)], leaves [vtable] as it is
    (the old function stays, the new one is not installed), returns the old
    [openFunctionIndex] and moves [openFunctionIndex] up by one. *)
Theorem bind_conflict (interfaceId : string) (function old : Fn) (s : State) :
  0 <= openFunctionIndex s < 255 ->
  aget None (vtable s) (openFunctionIndex s) = Some old ->
  fst (bind interfaceId function s) = openFunctionIndex s
  /\ sent (snd (bind interfaceId function s))
     = sent s ++ [SendError FUNCTIONS_ERROR_FUNCTION_CONFLICT]
  /\ vtable (snd (bind interfaceId function s)) = vtable s
  /\ aget None (vtable (snd (bind interfaceId function s))) (openFunctionIndex s)
     = Some old
  /\ openFunctionIndex (snd (bind interfaceId function s)) = openFunctionIndex s + 1.
Proof.
  intros Hopen Hslot. unfold bind.
  destruct (negb (knownInterface interfaceId s)); simpl; rewrite Hslot; simpl;
    rewrite to_byte_id by (unfold is_byte; lia); auto.
Qed.

Lemma bind_conflict_witness :
  0 <= openFunctionIndex slot_4_taken < 255
  /\ aget None (vtable slot_4_taken) (openFunctionIndex slot_4_taken)
     = Some (FnNative 7)
  /\ fst (bind "AAAA1" (FnNative 8) slot_4_taken) = 4
  /\ sent (snd (bind "AAAA1" (FnNative 8) slot_4_taken))
     = [SendError FUNCTIONS_ERROR_FUNCTION_CONFLICT]
  /\ aget None (vtable (snd (bind "AAAA1" (FnNative 8) slot_4_taken))) 4
     = Some (FnNative 7)
  /\ openFunctionIndex (snd (bind "AAAA1" (FnNative 8) slot_4_taken)) = 5.
Proof.
  assert (Hopen : 0 <= openFunctionIndex slot_4_taken < 255) by (simpl; lia).
  assert (Hslot : aget None (vtable slot_4_taken) (openFunctionIndex slot_4_taken)
                  = Some (FnNative 7)) by reflexivity.
  destruct (bind_conflict "AAAA1" (FnNative 8) (FnNative 7) slot_4_taken Hopen Hslot)
    as (H1 & H2 & _ & H3 & H4).
  split; [exact Hopen|]. split; [exact Hslot|]. split; [exact H1|].
  split; [exact H2|]. split; [exact H3 | exact H4].
Defined.

(** ** Responses *)

(** [push] touches the stack and the transport log only. *)
Lemma push_registry (b : Z) (s : State) :
  indexOfInterfaces (push b s) = indexOfInterfaces s
  /\ interfaceIds (push b s) = interfaceIds s
  /\ interfaceStart (push b s) = interfaceStart s.
Proof. unfold push. destruct (_ =? _); simpl; auto. Qed.

Lemma pushes_app (bs cs : list Z) (s : State) :
  pushes (bs ++ cs) s = pushes cs (pushes bs s).
Proof. unfold pushes. apply foldl_app. Qed.

Lemma pushes_registry (bs : list Z) (s : State) :
  indexOfInterfaces (pushes bs s) = indexOfInterfaces s
  /\ interfaceIds (pushes bs s) = interfaceIds s
  /\ interfaceStart (pushes bs s) = interfaceStart s.
Proof.
  revert s. induction bs as [|b bs IH]; intros s; [simpl; auto|].
  change (pushes (b :: bs) s) with (pushes bs (push b s)).
  destruct (IH (push b s)) as (H1 & H2 & H3).
  destruct (push_registry b s) as (H4 & H5 & H6).
  rewrite H1, H2, H3. auto.
Qed.

(** Lowering the top index by the length of [vs] takes [vs] off the view. *)
Lemma stack_view_drop (vs : list Z) :
  forall (s : State) (rest : list Z),
  stack_ok s -> stack_view s = vs ++ rest ->
  stack_view (set_stack (parameterStackTop s - Z.of_nat (length vs))
                (parameterStack s) s) = rest.
Proof.
  induction vs as [|v vs IH]; intros s rest Hok Hview.
  - simpl. rewrite Z.sub_0_r. exact Hview.
  - destruct (pop_view s v (vs ++ rest) Hok Hview) as (Hpop & Hok1 & Hview1).
    rewrite Hpop in Hok1, Hview1. simpl in Hok1, Hview1.
    specialize (IH _ rest Hok1 Hview1). simpl in IH.
    replace (parameterStackTop s - Z.of_nat (length (v :: vs)))
      with (parameterStackTop s - 1 - Z.of_nat (length vs)) by (simpl length; lia).
    exact IH.
Qed.

(** The loop of [sendResponseCount] moves the values on top of the stack
    into the frame, the top one first. *)
Lemma sendResponseCount_fill_view (fuel : nat) :
  forall (i count : Z) (frame prefix : list Z) (s : State) (vs rest : list Z),
  stack_ok s -> stack_view s = vs ++ rest -> length vs = fuel ->
  count = i + Z.of_nat fuel -> 0 <= i ->
  frame = prefix ++ replicate fuel 0 -> Z.of_nat (length prefix) = 3 + i ->
  sendResponseCount_fill fuel i count frame s
  = (prefix ++ (to_byte <$> vs),
     set_stack (parameterStackTop s - Z.of_nat fuel) (parameterStack s) s).
Proof.
  induction fuel as [|fuel IH];
    intros i count frame prefix s vs rest Hok Hview Hlen Hcount Hi Hframe Hprefix.
  - destruct vs; [|discriminate]. simpl. rewrite !app_nil_r in *.
    rewrite Z.sub_0_r. subst frame. destruct s; reflexivity.
  - destruct vs as [|v vs]; [discriminate|]. injection Hlen as Hlen.
    cbn [sendResponseCount_fill].
    destruct (Z.ltb_spec i count); [|lia].
    destruct (pop_view s v (vs ++ rest) Hok Hview) as (Hpop & Hok1 & Hview1).
    rewrite Hpop in *. simpl in Hok1, Hview1.
    rewrite (IH (i + 1) count _ (prefix ++ [to_byte v]) _ vs rest Hok1 Hview1 Hlen).
    + simpl. rewrite <- app_assoc. simpl. f_equal.
      unfold set_stack. simpl. f_equal. lia.
    + lia.
    + lia.
    + subst frame. unfold aset. destruct (Z.leb_spec 0 (3 + i)); [|lia].
      replace (Z.to_nat (3 + i)) with (length prefix + 0)%nat by lia.
      rewrite insert_app_r. simpl. rewrite <- app_assoc. reflexivity.
    + rewrite length_app. simpl. lia.
Qed.

(** [sendResponseCount] on a stack that holds a count [c] and, below it, at
    least [c] values: one response frame with these values, and the [c + 1]
    cells are free again. *)
Lemma sendResponseCount_view (tag : Z) (s : State) (c : Z) (vs rest : list Z) :
  stack_ok s -> stack_view s = c :: vs ++ rest ->
  0 <= c <= 127 -> Z.of_nat (length vs) = c ->
  sendResponseCount tag s
  = sendFrame ([tag; callerSequence s; c] ++ (to_byte <$> vs))
      (set_stack (parameterStackTop s - 1 - c) (parameterStack s) s)
  /\ stack_view (sendResponseCount tag s) = rest.
Proof.
  intros Hok Hview Hc Hlen.
  assert (Heq : sendResponseCount tag s
                = sendFrame ([tag; callerSequence s; c] ++ (to_byte <$> vs))
                    (set_stack (parameterStackTop s - 1 - c) (parameterStack s) s)).
  { unfold sendResponseCount.
    destruct (pop_view s c (vs ++ rest) Hok Hview) as (Hpop & Hok1 & Hview1).
    rewrite Hpop in *. simpl in Hok1, Hview1.
    rewrite (to_byte_id (3 + c)) by (unfold is_byte; lia).
    rewrite (to_byte_id c) by (unfold is_byte; lia).
    rewrite (sendResponseCount_fill_view (Z.to_nat c) 0 c _
               [tag; callerSequence s; c] _ vs rest Hok1 Hview1).
    - simpl. unfold sendFrame, set_stack, set_sent. simpl. do 2 f_equal. lia.
    - lia.
    - lia.
    - lia.
    - replace (Z.to_nat (3 + c)) with (S (S (S (Z.to_nat c)))) by lia. reflexivity.
    - reflexivity. }
  split; [exact Heq|]. rewrite Heq.
  pose proof (stack_view_drop (c :: vs) s rest Hok Hview) as Hrest.
  assert (E : Z.of_nat (length (c :: vs)) = 1 + c) by (simpl length; lia).
  rewrite E in Hrest.
  replace (parameterStackTop s - 1 - c) with (parameterStackTop s - (1 + c)) by lia.
  exact Hrest.
Qed.

(** ** [queryInterface] *)

Lemma charAt_byte (str : string) (i : Z) : is_byte (charAt str i).
Proof.
  unfold is_byte, charAt. destruct (0 <=? i); [|lia].
  destruct (String.get (Z.to_nat i) str) as [c|]; [|lia].
  pose proof (Ascii.nat_ascii_bounded c). lia.
Qed.

Lemma queryInterface_entries_pushes (fuel : nat) :
  forall (index : Z) (s : State),
  0 <= index -> index + Z.of_nat fuel <= indexOfInterfaces s ->
  queryInterface_entries fuel index s
  = pushes (concat (entry_pushes (interfaceIds s) (interfaceStart s)
                      <$> seqZ index (Z.of_nat fuel))) s.
Proof.
  induction fuel as [|fuel IH]; intros index s Hindex Hfit; [reflexivity|].
  cbn [queryInterface_entries].
  destruct (Z.ltb_spec index (indexOfInterfaces s)); [|lia].
  set (id := aget EmptyString (interfaceIds s) index).
  set (chars := [charAt id 4; charAt id 3; charAt id 2; charAt id 1; charAt id 0]).
  change (queryInterface_chars (Z.to_nat interfaceIdLength) (interfaceIdLength - 1) id s)
    with (pushes chars s).
  destruct (pushes_registry chars s) as (_ & _ & Hst). rewrite Hst.
  change (push (aget 0 (interfaceStart s) index) (pushes chars s))
    with (pushes (entry_pushes (interfaceIds s) (interfaceStart s) index) s).
  destruct (pushes_registry (entry_pushes (interfaceIds s) (interfaceStart s) index) s)
    as (Hn & Hids & Hstarts).
  rewrite IH by lia. rewrite Hids, Hstarts.
  rewrite (seqZ_cons index) by lia. rewrite fmap_cons. cbn [concat].
  rewrite pushes_app.
  replace (Z.pred (Z.of_nat (S fuel))) with (Z.of_nat fuel) by lia.
  replace (index + 1) with (Z.succ index) by lia.
  reflexivity.
Qed.

Lemma length_entries_pushes (ids : list string) (starts : list Z) (n : nat) :
  Z.of_nat (length (concat (entry_pushes ids starts <$> seqZ 0 (Z.of_nat n))))
  = 6 * Z.of_nat n.
Proof.
  induction n as [|n IH]; [reflexivity|].
  rewrite seqZ_S, fmap_app, concat_app, length_app. simpl. lia.
Qed.

Lemma payload_of_pushes (s : State) (n : nat) :
  to_byte <$> reverse (to_int8 <$>
    concat (entry_pushes (interfaceIds s) (interfaceStart s) <$> seqZ 0 (Z.of_nat n)))
  = concat (interface_entry s <$> reverse (seqZ 0 (Z.of_nat n))).
Proof.
  induction n as [|n IH]; [reflexivity|].
  rewrite seqZ_S, fmap_app, concat_app, fmap_app, reverse_app, fmap_app, IH.
  rewrite reverse_app, fmap_app, concat_app.
  f_equal. simpl. unfold interface_entry. simpl.
  rewrite !to_byte_to_int8.
  rewrite !(to_byte_id (charAt _ _)) by apply charAt_byte.
  reflexivity.
Qed.

(** [queryInterface] on a stack with room for the entries and the count: the
    state it leaves differs from the one it found by the frame sent and by
    the cells above the top of the stack. *)
Lemma queryInterface_sends (tag : Z) (s : State) :
  stack_ok s -> 0 <= indexOfInterfaces s ->
  parameterStackTop s + 6 * indexOfInterfaces s + 1 <= 128 ->
  exists stack,
    queryInterface tag s
    = sendFrame ([tag; callerSequence s; 6 * indexOfInterfaces s] ++ query_payload s)
        (set_stack (parameterStackTop s) stack s)
    /\ stack_view (queryInterface tag s) = stack_view s
    /\ Z.of_nat (length (query_payload s)) = 6 * indexOfInterfaces s.
Proof.
  intros Hok Hn Hroom. unfold queryInterface.
  pose proof (proj2 Hok) as Htop.
  rewrite queryInterface_entries_pushes by lia.
  rewrite Z2Nat.id by lia.
  set (pushed := concat (entry_pushes (interfaceIds s) (interfaceStart s)
                           <$> seqZ 0 (indexOfInterfaces s))).
  assert (Hlen : Z.of_nat (length pushed) = 6 * indexOfInterfaces s).
  { unfold pushed. rewrite <- (Z2Nat.id (indexOfInterfaces s)) at 1 by lia.
    rewrite length_entries_pushes. lia. }
  destruct (pushes_registry pushed s) as (Hidx & _). rewrite Hidx.
  change ((interfaceIdLength + 1) * indexOfInterfaces s)
    with (6 * indexOfInterfaces s).
  destruct (pushes_room pushed s Hok) as (stack1 & Heq1 & Hok1 & Hview1); [lia|].
  destruct (pushes_room [6 * indexOfInterfaces s] (pushes pushed s) Hok1)
    as (stack2 & Heq2 & Hok2 & Hview2).
  { rewrite Heq1. simpl. lia. }
  change (pushes [6 * indexOfInterfaces s] (pushes pushed s))
    with (push (6 * indexOfInterfaces s) (pushes pushed s)) in *.
  simpl in Hview2.
  rewrite to_int8_id in Hview2 by (unfold is_int8; lia).
  rewrite Hview1 in Hview2.
  assert (Hcount : Z.of_nat (length (reverse (to_int8 <$> pushed)))
                   = 6 * indexOfInterfaces s)
    by (rewrite length_reverse, length_fmap; exact Hlen).
  destruct (sendResponseCount_view tag _ _ _ _ Hok2 Hview2) as (Heq3 & Hview3);
    [lia | lia |].
  assert (Hpayload : to_byte <$> reverse (to_int8 <$> pushed) = query_payload s).
  { unfold pushed, query_payload.
    rewrite <- (Z2Nat.id (indexOfInterfaces s)) by lia. apply payload_of_pushes. }
  exists stack2. split; [|split].
  - rewrite Heq3, Hpayload, Heq2, Heq1. unfold sendFrame, set_sent, set_stack. simpl.
    f_equal. lia.
  - exact Hview3.
  - rewrite <- Hpayload, length_fmap. exact Hcount.
Qed.

(** C4, as amended: on a stack with room for the entries and the count,
    [queryInterface] sends one response frame [tag, callerSequence, 6 * n,
    payload], n being [indexOfInterfaces]; the payload lists the registered
    interfaces from the one registered last to the one registered first, each
    as its start index followed by the five characters of its id, and is
    6 * n bytes long; the stack is afterwards as it was.  After binding
    "AAAA1" at 4 and "BBBB1" at 6 the payload is 6, "BBBB1", 4, "AAAA1" and
    the length byte is 12. *)
Theorem queryInterface_response (tag : Z) (s : State) :
  stack_ok s -> 0 <= indexOfInterfaces s ->
  parameterStackTop s + 6 * indexOfInterfaces s + 1 <= 128 ->
  sent (queryInterface tag s)
  = sent s ++ [SendFrame ([tag; callerSequence s; 6 * indexOfInterfaces s]
                          ++ query_payload s)]
  /\ Z.of_nat (length (query_payload s)) = 6 * indexOfInterfaces s
  /\ parameterStackTop (queryInterface tag s) = parameterStackTop s
  /\ stack_view (queryInterface tag s) = stack_view s.
Proof.
  intros Hok Hn Hroom.
  destruct (queryInterface_sends tag s Hok Hn Hroom) as (stack & Heq & Hview & Hlen).
  split; [rewrite Heq; reflexivity|]. split; [exact Hlen|].
  split; [rewrite Heq; reflexivity | exact Hview].
Qed.

Lemma queryInterface_response_witness :
  stack_ok two_interfaces_bound
  /\ 0 <= indexOfInterfaces two_interfaces_bound
  /\ parameterStackTop two_interfaces_bound
     + 6 * indexOfInterfaces two_interfaces_bound + 1 <= 128
  /\ sent (queryInterface example_tag two_interfaces_bound)
     = [SendFrame [125; 0; 12; 6; 66; 66; 66; 66; 49; 4; 65; 65; 65; 65; 49]].
Proof.
  assert (Hok : stack_ok two_interfaces_bound) by (split; simpl; [reflexivity | lia]).
  assert (Hn : 0 <= indexOfInterfaces two_interfaces_bound) by (vm_compute; discriminate).
  assert (Hroom : parameterStackTop two_interfaces_bound
                  + 6 * indexOfInterfaces two_interfaces_bound + 1 <= 128)
    by (vm_compute; discriminate).
  destruct (queryInterface_response example_tag two_interfaces_bound Hok Hn Hroom)
    as (H1 & _).
  split; [exact Hok|]. split; [exact Hn|]. split; [exact Hroom|]. exact H1.
Defined.

(** C4, as stated, fails.  With "AAAA1" bound at 4 and "BBBB1" at 6 and an
    empty stack, the payload of the response is 6, "BBBB1", 4, "AAAA1" (the
    codes of 'A', 'B' and '1' are 65, 66 and 49), not "AAAA1", 4, "BBBB1",
    6; the length byte is 12. *)
Lemma queryInterface_payload_order :
  indexOfInterfaces two_interfaces_bound = 2
  /\ take 2 (interfaceIds two_interfaces_bound) = ["AAAA1"%string; "BBBB1"%string]
  /\ take 2 (interfaceStart two_interfaces_bound) = [4; 6]
  /\ parameterStackTop two_interfaces_bound = -1
  /\ sent (queryInterface example_tag two_interfaces_bound)
     = [SendFrame ([example_tag; 0; 12]
                   ++ [6; 66; 66; 66; 66; 49; 4; 65; 65; 65; 65; 49])]
  /\ [6; 66; 66; 66; 66; 49; 4; 65; 65; 65; 65; 49]
     <> [65; 65; 65; 65; 49; 4; 66; 66; 66; 66; 49; 6].
Proof. vm_compute. repeat split; try reflexivity. discriminate. Qed.

(** ** A conflict on the first function of a new interface *)

(** [bind] leaves the stack and [callerSequence] alone. *)
Lemma bind_stack (interfaceId : string) (function : Fn) (s : State) :
  parameterStackTop (snd (bind interfaceId function s)) = parameterStackTop s
  /\ parameterStack (snd (bind interfaceId function s)) = parameterStack s
  /\ callerSequence (snd (bind interfaceId function s)) = callerSequence s.
Proof.
  unfold bind.
  destruct (negb (knownInterface interfaceId s)); simpl;
    destruct (aget None _ _); simpl; auto.
Qed.

(** C10: when [bind] is called with an interface id that is not in the
    registry and the slot of [vtable] at [openFunctionIndex] is taken, the id
    is entered in the registry with that [openFunctionIndex] as its start,
    [indexOfInterfaces] goes up by one, [FUNCTIONS_ERROR_FUNCTION_CONFLICT] is
    sent and the entry stays; the slot still holds the old function, and the
    response of a following [queryInterface] begins with the new entry. *)
Theorem new_interface_survives_conflict (tag : Z) (interfaceId : string)
    (function old : Fn) (s : State) :
  0 <= indexOfInterfaces s < 25 ->
  length (interfaceIds s) = 25%nat -> length (interfaceStart s) = 25%nat ->
  0 <= openFunctionIndex s < 255 ->
  knownInterface interfaceId s = false ->
  aget None (vtable s) (openFunctionIndex s) = Some old ->
  sent (snd (bind interfaceId function s))
  = sent s ++ [SendError FUNCTIONS_ERROR_FUNCTION_CONFLICT]
  /\ indexOfInterfaces (snd (bind interfaceId function s)) = indexOfInterfaces s + 1
  /\ aget EmptyString (interfaceIds (snd (bind interfaceId function s)))
       (indexOfInterfaces s) = interfaceId
  /\ aget 0 (interfaceStart (snd (bind interfaceId function s)))
       (indexOfInterfaces s) = openFunctionIndex s
  /\ aget None (vtable (snd (bind interfaceId function s))) (openFunctionIndex s)
     = Some old
  /\ (stack_ok s ->
      parameterStackTop s + 6 * (indexOfInterfaces s + 1) + 1 <= 128 ->
      exists earlier,
        sent (queryInterface tag (snd (bind interfaceId function s)))
        = sent s ++ [SendError FUNCTIONS_ERROR_FUNCTION_CONFLICT;
                     SendFrame ([tag; callerSequence s; 6 * (indexOfInterfaces s + 1)]
                                ++ (openFunctionIndex s
                                    :: (charAt interfaceId <$> [0; 1; 2; 3; 4]))
                                ++ earlier)]).
Proof.
  intros Hidx Hids Hstarts Hopen Hnew Hslot.
  assert (Hbind : snd (bind interfaceId function s)
    = set_openFunctionIndex (to_byte (openFunctionIndex s + 1))
        (sendError FUNCTIONS_ERROR_FUNCTION_CONFLICT
           (set_interfaces (to_byte (indexOfInterfaces s + 1))
              (aset (interfaceIds s) (indexOfInterfaces s) interfaceId)
              (aset (interfaceStart s) (indexOfInterfaces s) (openFunctionIndex s)) s))).
  { unfold bind. rewrite Hnew. simpl. rewrite Hslot. reflexivity. }
  assert (H1 : sent (snd (bind interfaceId function s))
               = sent s ++ [SendError FUNCTIONS_ERROR_FUNCTION_CONFLICT])
    by (rewrite Hbind; reflexivity).
  assert (H2 : indexOfInterfaces (snd (bind interfaceId function s))
               = indexOfInterfaces s + 1).
  { rewrite Hbind. simpl. apply to_byte_id. unfold is_byte. lia. }
  assert (H3 : aget EmptyString (interfaceIds (snd (bind interfaceId function s)))
                 (indexOfInterfaces s) = interfaceId).
  { rewrite Hbind. simpl. apply aget_aset_eq. lia. }
  assert (H4 : aget 0 (interfaceStart (snd (bind interfaceId function s)))
                 (indexOfInterfaces s) = openFunctionIndex s).
  { rewrite Hbind. simpl. apply aget_aset_eq. lia. }
  assert (H5 : aget None (vtable (snd (bind interfaceId function s)))
                 (openFunctionIndex s) = Some old)
    by (rewrite Hbind; exact Hslot).
  do 5 (split; [assumption|]).
  intros Hok Hroom.
  destruct (bind_stack interfaceId function s) as (Htop & Hstack & Hseq).
  destruct (queryInterface_sends tag (snd (bind interfaceId function s)))
    as (stack & Hsends & _).
  - destruct Hok as [Hlen Hrange]. split; [rewrite Hstack | rewrite Htop]; assumption.
  - lia.
  - rewrite Htop, H2. exact Hroom.
  - exists (concat (interface_entry (snd (bind interfaceId function s))
                      <$> reverse (seqZ 0 (indexOfInterfaces s)))).
    rewrite Hsends. unfold sendFrame, set_sent, set_stack. cbn [sent].
    rewrite H1, Hseq.
    unfold query_payload. rewrite H2.
    replace (indexOfInterfaces s + 1)
      with (Z.of_nat (S (Z.to_nat (indexOfInterfaces s)))) at 2 by lia.
    rewrite seqZ_S, reverse_snoc, fmap_cons, Z2Nat.id, Z.add_0_l by lia.
    cbn [concat]. unfold interface_entry at 1. rewrite H3, H4.
    rewrite to_byte_id by (unfold is_byte; lia).
    rewrite <- app_assoc. reflexivity.
Qed.

(** The state of [slot_4_taken] has an empty registry: binding "AAAA1" there
    registers the interface at 4 although slot 4 keeps its old function. *)
Lemma new_interface_survives_conflict_witness :
  0 <= indexOfInterfaces slot_4_taken < 25
  /\ length (interfaceIds slot_4_taken) = 25%nat
  /\ length (interfaceStart slot_4_taken) = 25%nat
  /\ 0 <= openFunctionIndex slot_4_taken < 255
  /\ knownInterface "AAAA1" slot_4_taken = false
  /\ aget None (vtable slot_4_taken) (openFunctionIndex slot_4_taken)
     = Some (FnNative 7)
  /\ stack_ok slot_4_taken
  /\ parameterStackTop slot_4_taken + 6 * (indexOfInterfaces slot_4_taken + 1) + 1 <= 128
  /\ indexOfInterfaces (snd (bind "AAAA1" (FnNative 8) slot_4_taken)) = 1
  /\ aget None (vtable (snd (bind "AAAA1" (FnNative 8) slot_4_taken))) 4
     = Some (FnNative 7)
  /\ exists earlier,
       sent (queryInterface example_tag (snd (bind "AAAA1" (FnNative 8) slot_4_taken)))
       = [SendError FUNCTIONS_ERROR_FUNCTION_CONFLICT;
          SendFrame ([125; 0; 6] ++ [4; 65; 65; 65; 65; 49] ++ earlier)].
Proof.
  assert (Hidx : 0 <= indexOfInterfaces slot_4_taken < 25) by (simpl; lia).
  assert (Hids : length (interfaceIds slot_4_taken) = 25%nat) by reflexivity.
  assert (Hstarts : length (interfaceStart slot_4_taken) = 25%nat) by reflexivity.
  assert (Hopen : 0 <= openFunctionIndex slot_4_taken < 255) by (simpl; lia).
  assert (Hnew : knownInterface "AAAA1" slot_4_taken = false) by reflexivity.
  assert (Hslot : aget None (vtable slot_4_taken) (openFunctionIndex slot_4_taken)
                  = Some (FnNative 7)) by reflexivity.
  assert (Hok : stack_ok slot_4_taken) by (split; simpl; [reflexivity | lia]).
  assert (Hroom : parameterStackTop slot_4_taken
                  + 6 * (indexOfInterfaces slot_4_taken + 1) + 1 <= 128)
    by (simpl; lia).
  destruct (new_interface_survives_conflict example_tag "AAAA1" (FnNative 8)
              (FnNative 7) slot_4_taken Hidx Hids Hstarts Hopen Hnew Hslot)
    as (_ & H2 & _ & _ & H5 & Hquery).
  split; [exact Hidx|]. split; [exact Hids|]. split; [exact Hstarts|].
  split; [exact Hopen|]. split; [exact Hnew|]. split; [exact Hslot|].
  split; [exact Hok|]. split; [exact Hroom|].
  split; [exact H2|]. split; [exact H5|]. exact (Hquery Hok Hroom).
Defined.

(** ** [pushArray] *)

Lemma push_set_reads (b : Z) (r : list Z) (s : State) :
  push b (set_reads r s) = set_reads r (push b s).
Proof. unfold push. simpl. destruct (_ =? _); reflexivity. Qed.

Lemma pushes_set_reads (bs : list Z) (r : list Z) (s : State) :
  pushes bs (set_reads r s) = set_reads r (pushes bs s).
Proof.
  revert s. induction bs as [|b bs IH]; intros s; [reflexivity|].
  change (pushes (b :: bs) (set_reads r s)) with (pushes bs (push b (set_reads r s))).
  rewrite push_set_reads. apply IH.
Qed.

Lemma push_set_execution (b : Z) (e : Z) (s : State) :
  push b (set_execution e s) = set_execution e (push b s).
Proof. unfold push. simpl. destruct (_ =? _); reflexivity. Qed.

Lemma pushes_set_execution (bs : list Z) (e : Z) (s : State) :
  pushes bs (set_execution e s) = set_execution e (pushes bs s).
Proof.
  revert s. induction bs as [|b bs IH]; intros s; [reflexivity|].
  change (pushes (b :: bs) (set_execution e s))
    with (pushes bs (push b (set_execution e s))).
  rewrite push_set_execution. apply IH.
Qed.

(** [push] touches neither the frame pointers nor the memory nor the log of
    reads. *)
Lemma push_frame (b : Z) (s : State) :
  execution (push b s) = execution s /\ frameTop (push b s) = frameTop s
  /\ memory (push b s) = memory s /\ reads (push b s) = reads s.
Proof. unfold push. destruct (_ =? _); simpl; auto. Qed.

Lemma pushes_frame (bs : list Z) (s : State) :
  execution (pushes bs s) = execution s /\ frameTop (pushes bs s) = frameTop s
  /\ memory (pushes bs s) = memory s /\ reads (pushes bs s) = reads s.
Proof.
  revert s. induction bs as [|b bs IH]; intros s; [simpl; auto|].
  change (pushes (b :: bs) s) with (pushes bs (push b s)).
  destruct (IH (push b s)) as (H1 & H2 & H3 & H4).
  destruct (push_frame b s) as (H5 & H6 & H7 & H8).
  rewrite H1, H2, H3, H4. auto.
Qed.

(** The first loop of [pushArray] reads the [fuel] bytes that follow
    [execution], the last one first, and pushes them in that order. *)
Lemma pushArray_data_pushes (fuel : nat) :
  forall s : State,
  pushArray_data fuel (Z.of_nat fuel - 1) s
  = set_reads (reads s ++ ((fun k => execution s + k) <$> reverse (seqZ 0 (Z.of_nat fuel))))
      (pushes ((fun k => to_byte (memory s (execution s + k)))
                 <$> reverse (seqZ 0 (Z.of_nat fuel))) s).
Proof.
  induction fuel as [|fuel IH]; intros s.
  - simpl. rewrite app_nil_r. destruct s; reflexivity.
  - cbn [pushArray_data].
    destruct (Z.gtb_spec (Z.of_nat (S fuel) - 1) (-1)); [|lia].
    replace (Z.of_nat (S fuel) - 1) with (Z.of_nat fuel) by lia.
    rewrite seqZ_S, reverse_snoc, !fmap_cons, Z.add_0_l.
    unfold deref. rewrite push_set_reads.
    destruct (push_frame (to_byte (memory s (execution s + Z.of_nat fuel))) s)
      as (He & _ & Hm & Hr).
    rewrite IH. simpl. rewrite He, Hm.
    rewrite pushes_set_reads. unfold set_reads. simpl.
    rewrite <- app_assoc. reflexivity.
Qed.

(** The second loop of [pushArray], when the bytes to skip lie in the
    frame. *)
Lemma pushArray_skip_in_frame (fuel : nat) :
  forall (i length : Z) (s : State),
  0 <= i -> length - i <= Z.of_nat fuel -> i <= length ->
  execution s + (length - i) <= frameTop s ->
  pushArray_skip fuel i length s = set_execution (execution s + (length - i)) s.
Proof.
  induction fuel as [|fuel IH]; intros i length s Hi Hfuel Hle Hin.
  - simpl. replace (length - i) with 0 by lia. rewrite Z.add_0_r.
    destruct s; reflexivity.
  - cbn [pushArray_skip]. destruct (Z.ltb_spec i length).
    + simpl. destruct (Z.gtb_spec (execution s + 1) (frameTop s)); [lia|].
      rewrite IH by (simpl; lia). unfold set_execution. simpl. f_equal. lia.
    + replace (length - i) with 0 by lia. rewrite Z.add_0_r.
      destruct s; reflexivity.
Qed.

(** [pushArray] on a frame that holds the length byte and all the bytes it
    announces. *)
Lemma pushArray_in_frame (s : State) (length : Z) :
  to_byte (memory s (execution s)) = length ->
  execution s + 1 + length <= frameTop s ->
  pushArray s
  = set_execution (execution s + 1 + length)
      (set_reads (reads s ++ execution s
                  :: ((fun k => execution s + 1 + k) <$> reverse (seqZ 0 length)))
         (pushes ((fun k => to_byte (memory s (execution s + 1 + k)))
                    <$> reverse (seqZ 0 length)) s)).
Proof.
  intros Hlength Hin.
  pose proof (to_byte_range (memory s (execution s))) as Hbyte.
  unfold is_byte in Hbyte. rewrite Hlength in Hbyte.
  unfold pushArray.
  destruct (Z.eqb_spec (execution s) (frameTop s)); [lia|].
  unfold deref at 1. rewrite Hlength.
  replace (length - 1) with (Z.of_nat (Z.to_nat length) - 1) by lia.
  rewrite pushArray_data_pushes. simpl. rewrite Z2Nat.id by lia.
  rewrite pushes_set_execution, pushes_set_reads.
  destruct (pushes_frame ((fun k => to_byte (memory s (execution s + 1 + k)))
                            <$> reverse (seqZ 0 length)) s) as (_ & Htop & _).
  rewrite pushArray_skip_in_frame.
  - unfold set_execution, set_reads. simpl. rewrite <- app_assoc. simpl.
    rewrite Z.sub_0_r. reflexivity.
  - lia.
  - lia.
  - lia.
  - simpl. rewrite Htop. lia.
Qed.

(** C8: [pushArray] with [execution] at the bytes 3, 0x10, 0x20, 0x30, all
    four of them below [frameTop], and three free cells on the stack, pushes
    0x30, then 0x20, then 0x10, so that the stack reads 0x10, 0x20, 0x30 from
    the top, and moves [execution] on by 4; nothing is sent. *)
Theorem pushArray_three_bytes (s : State) :
  stack_ok s -> parameterStackTop s + 3 <= 128 ->
  execution s + 4 <= frameTop s ->
  memory s (execution s) = 3 -> memory s (execution s + 1) = 16 ->
  memory s (execution s + 2) = 32 -> memory s (execution s + 3) = 48 ->
  execution (pushArray s) = execution s + 4
  /\ stack_view (pushArray s) = 16 :: 32 :: 48 :: stack_view s
  /\ parameterStackTop (pushArray s) = parameterStackTop s + 3
  /\ sent (pushArray s) = sent s
  /\ reads (pushArray s)
     = reads s ++ [execution s; execution s + 3; execution s + 2; execution s + 1].
Proof.
  intros Hok Hroom Hframe H0 H1 H2 H3.
  destruct (pushes_room [48; 32; 16] s Hok) as (stack & Heq & Hok' & Hview);
    [simpl; lia|].
  rewrite (pushArray_in_frame s 3) by (rewrite ?H0; try reflexivity; lia).
  change (reverse (seqZ 0 3)) with [2; 1; 0]. simpl.
  replace (execution s + 1 + 2) with (execution s + 3) by lia.
  replace (execution s + 1 + 1) with (execution s + 2) by lia.
  rewrite Z.add_0_r, H1, H2, H3.
  change (push (to_byte 16) (push (to_byte 32) (push (to_byte 48) s)))
    with (pushes [48; 32; 16] s).
  unfold stack_view in *. simpl in *. rewrite Heq in *. simpl in *.
  split; [lia|]. split; [exact Hview|]. split; [lia|]. split; reflexivity.
Qed.

Lemma pushArray_three_bytes_witness :
  stack_ok three_byte_array
  /\ parameterStackTop three_byte_array + 3 <= 128
  /\ execution three_byte_array + 4 <= frameTop three_byte_array
  /\ memory three_byte_array (execution three_byte_array) = 3
  /\ memory three_byte_array (execution three_byte_array + 1) = 16
  /\ memory three_byte_array (execution three_byte_array + 2) = 32
  /\ memory three_byte_array (execution three_byte_array + 3) = 48
  /\ execution (pushArray three_byte_array) = 4
  /\ stack_view (pushArray three_byte_array) = [16; 32; 48].
Proof.
  assert (Hok : stack_ok three_byte_array) by (split; simpl; [reflexivity | lia]).
  assert (Hroom : parameterStackTop three_byte_array + 3 <= 128) by (simpl; lia).
  assert (Hframe : execution three_byte_array + 4 <= frameTop three_byte_array)
    by (simpl; lia).
  destruct (pushArray_three_bytes three_byte_array Hok Hroom Hframe
              eq_refl eq_refl eq_refl eq_refl) as (H1 & H2 & _).
  split; [exact Hok|]. split; [exact Hroom|]. split; [exact Hframe|].
  do 4 (split; [reflexivity|]). split; [exact H1 | exact H2].
Defined.

(** ** The loop of [frameReceived] *)

Section Dispatch.

Variable tag : Z.
Variable native : nat -> State -> State.

(** The loop is left as soon as [execution] is [frameTop]. *)
Lemma frameReceived_loop_done (fuel : nat) (s : State) :
  execution s = frameTop s ->
  frameReceived_loop tag native (S fuel) s = Some ([], s).
Proof.
  intros H. cbn [frameReceived_loop].
  destruct (Z.eqb_spec (execution s) (frameTop s)); [reflexivity | contradiction].
Qed.

(** Otherwise the byte at [execution] is read, [execution] moves on by one,
    and the byte goes to [run]. *)
Lemma frameReceived_loop_step (fuel : nat) (s : State) :
  execution s <> frameTop s ->
  frameReceived_loop tag native (S fuel) s
  = match frameReceived_loop tag native fuel
            (run tag native (to_byte (memory s (execution s)))
               (set_execution (execution s + 1)
                  (set_reads (reads s ++ [execution s]) s))) with
    | Some (calls, s3) =>
        Some ((execution s, to_byte (memory s (execution s))) :: calls, s3)
    | None => None
    end.
Proof.
  intros H. cbn [frameReceived_loop].
  destruct (Z.eqb_spec (execution s) (frameTop s)); [contradiction | reflexivity].
Qed.

Lemma frameReceived_loop_ends (n : nat) :
  forall (s : State) (fuel : nat),
  execution s <= frameTop s -> frameTop s - execution s <= Z.of_nat n ->
  calls_stay_in_frame tag native n s -> (n < fuel)%nat ->
  exists calls s',
    frameReceived_loop tag native fuel s = Some (calls, s')
    /\ execution s' = frameTop s' /\ frameTop s' = frameTop s
    /\ StronglySorted Z.lt (fst <$> calls)
    /\ Forall (fun c => execution s <= fst c < frameTop s
                        /\ snd c = to_byte (memory s (fst c))) calls.
Proof.
  induction n as [|n IH]; intros s fuel Hle Hn Hstay Hfuel.
  - destruct fuel as [|fuel]; [lia|].
    exists [], s. rewrite frameReceived_loop_done by lia.
    repeat split; [lia | constructor | constructor].
  - destruct fuel as [|fuel]; [lia|].
    destruct (Z.eq_dec (execution s) (frameTop s)) as [Heq|Hne].
    + exists [], s. rewrite frameReceived_loop_done by exact Heq.
      repeat split; [exact Heq | constructor | constructor].
    + rewrite frameReceived_loop_step by exact Hne.
      cbn [calls_stay_in_frame] in Hstay.
      destruct (Z.eqb_spec (execution s) (frameTop s)); [contradiction|].
      unfold deref in Hstay. simpl in Hstay.
      destruct Hstay as (Htop & Hmem & Hexec & Hstay).
      set (s2 := run tag native (to_byte (memory s (execution s)))
                   (set_execution (execution s + 1)
                      (set_reads (reads s ++ [execution s]) s))) in *.
      destruct (IH s2 fuel) as (calls & s' & Hloop & Hend & Htop' & Hsorted & Hall);
        [lia | lia | exact Hstay | lia |].
      exists ((execution s, to_byte (memory s (execution s))) :: calls), s'.
      rewrite Hloop.
      split; [reflexivity|]. split; [exact Hend|]. split; [lia|]. split.
      * rewrite fmap_cons. constructor; [exact Hsorted|].
        apply Forall_fmap. eapply Forall_impl; [exact Hall|].
        intros c (Hc & _). simpl. lia.
      * constructor; [simpl; split; [lia | reflexivity]|].
        eapply Forall_impl; [exact Hall|].
        intros c (Hc & Hid). rewrite Hmem in Hid. split; [lia | exact Hid].
Qed.

(** C7, as amended: [frameReceived] sets [execution] to the start of the
    frame, [callerSequence] to the sequence number and [frameTop] to the
    address behind the frame, and enters the loop; each turn of the loop
    that finds [execution] different from [frameTop] reads the byte at
    [execution], moves [execution] on by one and passes the byte to [run],
    and the loop is left when [execution] is [frameTop].  If every call made from
    the loop leaves [frameTop] and the memory as they are and leaves
    [execution] where it was or further on, but not above [frameTop], the
    loop ends after at most [frameLength] turns with [execution] equal to
    [frameTop]; the ids it passed to [run] are bytes of the frame, taken at
    strictly increasing addresses. *)
Theorem frameReceived_terminates (sequence frameLength frame : Z) (s : State)
    (fuel : nat) :
  0 <= frameLength ->
  calls_stay_in_frame tag native (Z.to_nat frameLength)
    (set_frame frame sequence (frame + frameLength) s) ->
  (Z.to_nat frameLength < fuel)%nat ->
  frameReceived tag native fuel sequence frameLength frame s
  = frameReceived_loop tag native fuel
      (set_frame frame sequence (frame + frameLength) s)
  /\ execution (set_frame frame sequence (frame + frameLength) s) = frame
  /\ callerSequence (set_frame frame sequence (frame + frameLength) s) = sequence
  /\ frameTop (set_frame frame sequence (frame + frameLength) s)
     = frame + frameLength
  /\ (forall k s0, execution s0 = frameTop s0 ->
        frameReceived_loop tag native (S k) s0 = Some ([], s0))
  /\ (forall k s0, execution s0 <> frameTop s0 ->
        frameReceived_loop tag native (S k) s0
        = match frameReceived_loop tag native k
                  (run tag native (to_byte (memory s0 (execution s0)))
                     (set_execution (execution s0 + 1)
                        (set_reads (reads s0 ++ [execution s0]) s0))) with
          | Some (calls, s3) =>
              Some ((execution s0, to_byte (memory s0 (execution s0))) :: calls, s3)
          | None => None
          end)
  /\ exists calls s',
       frameReceived tag native fuel sequence frameLength frame s = Some (calls, s')
       /\ execution s' = frameTop s' /\ frameTop s' = frame + frameLength
       /\ StronglySorted Z.lt (fst <$> calls)
       /\ Forall (fun c => frame <= fst c < frame + frameLength
                           /\ snd c = to_byte (memory s (fst c))) calls.
Proof.
  intros Hlen Hstay Hfuel.
  do 4 (split; [reflexivity|]).
  split; [intros k s0; apply frameReceived_loop_done|].
  split; [intros k s0; apply frameReceived_loop_step|].
  destruct (frameReceived_loop_ends (Z.to_nat frameLength)
              (set_frame frame sequence (frame + frameLength) s) fuel)
    as (calls & s' & Hloop & Hend & Htop & Hsorted & Hall);
    [simpl; lia | simpl; lia | exact Hstay | exact Hfuel |].
  exists calls, s'. split; [exact Hloop|]. split; [exact Hend|].
  split; [exact Htop|]. split; [exact Hsorted | exact Hall].
Qed.

(** A loop that starts above [frameTop], in a memory that holds from there
    on an id no function is bound to, never ends. *)
Lemma frameReceived_loop_runs_away (id : Z) (fuel : nat) :
  forall s : State,
  frameTop s < execution s ->
  (forall a, frameTop s < a -> to_byte (memory s a) = id) ->
  aget None (vtable s) id = None ->
  frameReceived_loop tag native fuel s = None.
Proof.
  induction fuel as [|fuel IH]; intros s Habove Hmem Hfree; [reflexivity|].
  rewrite frameReceived_loop_step by lia.
  rewrite (Hmem (execution s)) by lia.
  unfold run. simpl. rewrite Hfree.
  rewrite IH; [reflexivity | simpl; lia | exact Hmem | exact Hfree].
Qed.

End Dispatch.

Lemma frameReceived_terminates_witness :
  0 <= 5
  /\ calls_stay_in_frame example_tag no_natives (Z.to_nat 5)
       (set_frame 0 7 (0 + 5) array_then_query)
  /\ (Z.to_nat 5 < 6)%nat
  /\ exists calls s',
       frameReceived example_tag no_natives 6 7 5 0 array_then_query
       = Some (calls, s')
       /\ execution s' = frameTop s' /\ frameTop s' = 0 + 5
       /\ StronglySorted Z.lt (fst <$> calls)
       /\ Forall (fun c => 0 <= fst c < 0 + 5
                           /\ snd c = to_byte (memory array_then_query (fst c))) calls.
Proof.
  assert (Hlen : 0 <= 5) by lia.
  assert (Hstay : calls_stay_in_frame example_tag no_natives (Z.to_nat 5)
                    (set_frame 0 7 (0 + 5) array_then_query)).
  { vm_compute. repeat split; try reflexivity; discriminate. }
  assert (Hfuel : (Z.to_nat 5 < 6)%nat) by (simpl; lia).
  destruct (frameReceived_terminates example_tag no_natives 7 5 0 array_then_query 6
              Hlen Hstay Hfuel) as (_ & _ & _ & _ & _ & _ & Hends).
  split; [exact Hlen|]. split; [exact Hstay|]. split; [exact Hfuel | exact Hends].
Defined.

(** On that frame [run] is called with the id 1 read at address 0 and the id
    0 read at address 4, and one response frame goes out. *)
Example frameReceived_array_then_query :
  (fun r => (fst r, sent (snd r), stack_view (snd r)))
    <$> frameReceived example_tag no_natives 6 7 5 0 array_then_query
  = Some ([(0, 1); (4, 0)], [SendFrame [125; 7; 0]], [16; 32]).
Proof. vm_compute. reflexivity. Qed.

Lemma rewind_turn (r : list Z) :
  run example_tag rewind
    (to_byte (memory (set_reads r (set_frame 0 0 1 rewind_bound))
                (execution (set_reads r (set_frame 0 0 1 rewind_bound)))))
    (set_execution (execution (set_reads r (set_frame 0 0 1 rewind_bound)) + 1)
       (set_reads (reads (set_reads r (set_frame 0 0 1 rewind_bound))
                   ++ [execution (set_reads r (set_frame 0 0 1 rewind_bound))])
          (set_reads r (set_frame 0 0 1 rewind_bound))))
  = set_reads (r ++ [0]) (set_frame 0 0 1 rewind_bound).
Proof. reflexivity. Qed.

Lemma rewind_loop_never_ends (fuel : nat) :
  forall r : list Z,
  frameReceived_loop example_tag rewind fuel
    (set_reads r (set_frame 0 0 1 rewind_bound)) = None.
Proof.
  induction fuel as [|fuel IH]; intros r; [reflexivity|].
  rewrite frameReceived_loop_step by (simpl; lia).
  rewrite rewind_turn, IH. reflexivity.
Qed.

(** C7, as stated, fails: [rewind] never takes [execution] past [frameTop],
    it leaves [frameTop] alone, and on the one byte frame that calls it the
    loop of [frameReceived] does not end, whatever the fuel. *)
Lemma frameReceived_rewind_never_ends :
  (forall n s, execution (rewind n s) <= execution s
               /\ frameTop (rewind n s) = frameTop s)
  /\ ~ (exists fuel result,
          frameReceived example_tag rewind fuel 0 1 0 rewind_bound = Some result).
Proof.
  split.
  - intros n s. unfold rewind. simpl. split; [lia | reflexivity].
  - intros (fuel & result & H).
    change (frameReceived example_tag rewind fuel 0 1 0 rewind_bound)
      with (frameReceived_loop example_tag rewind fuel
              (set_reads [] (set_frame 0 0 1 rewind_bound))) in H.
    rewrite rewind_loop_never_ends in H. discriminate.
Qed.

Lemma short_frame_memory_beyond (a : Z) : 3 <= a -> to_byte (short_frame_memory a) = 9.
Proof.
  intros Ha. unfold short_frame_memory, frame_memory, aget.
  destruct (Z.leb_spec 0 a); [|lia].
  rewrite lookup_ge_None_2 by (simpl; lia). reflexivity.
Qed.

(** C1: the code does not keep its reads inside the frame.  On the frame
    PushArray, 3, 0x10, [pushArray] is entered with [execution] at address 1
    and [frameTop] at 3; it reads the length byte and then the addresses 4, 3
    and 2, of which 4 and 3 are not in the frame, and pushes what it finds
    there; [FRAME_TOO_SMALL] is sent only afterwards, with [execution] at 4,
    above [frameTop].  Back in [frameReceived] the loop goes on from there
    and never ends. *)
Theorem pushArray_reads_past_frameTop :
  execution short_frame = 1 /\ frameTop short_frame = 3
  /\ reads (pushArray short_frame) = [1; 4; 3; 2]
  /\ stack_view (pushArray short_frame) = [16; 9; 9]
  /\ sent (pushArray short_frame) = [SendError FUNCTIONS_ERROR_FRAME_TOO_SMALL]
  /\ execution (pushArray short_frame) = 4
  /\ forall fuel,
       frameReceived example_tag no_natives fuel 0 3 0
         (setup 1 0 2 3 short_frame_memory) = None.
Proof.
  do 6 (split; [reflexivity|]).
  intros [|fuel]; [reflexivity|].
  unfold frameReceived. rewrite frameReceived_loop_step by (simpl; lia).
  rewrite (frameReceived_loop_runs_away example_tag no_natives 9); [reflexivity | | |].
  - vm_compute. reflexivity.
  - intros a Ha. apply short_frame_memory_beyond.
    change (3 < a) in Ha. lia.
  - reflexivity.
Qed.


(** * Further properties *)

(** ** The bounds of the stack are kept *)



Lemma stack_ok_pop (s : State) : stack_ok s -> stack_ok (snd (pop s)).
Proof.
  intros [Hlen Htop]. unfold pop.
  destruct (Z.eqb_spec (parameterStackTop s) (-1)); split; simpl;
    try exact Hlen; lia.
Qed.


Lemma stack_ok_pushes (bs : list Z) (s : State) : stack_ok s -> stack_ok (pushes bs s).
Proof.
  revert s. induction bs as [|b bs IH]; intros s Hok; [exact Hok|].
  apply (IH (push b s)), stack_ok_push, Hok.
Qed.

Lemma stack_ok_sendResponseCount_fill (fuel : nat) :
  forall (i count : Z) (frame : list Z) (s : State),
  stack_ok s -> stack_ok (snd (sendResponseCount_fill fuel i count frame s)).
Proof.
  induction fuel as [|fuel IH]; intros i count frame s Hok; [exact Hok|].
  cbn [sendResponseCount_fill]. destruct (i <? count); [|exact Hok].
  pose proof (stack_ok_pop s Hok) as Hpop.
  destruct (pop s) as [value s1]. apply IH. exact Hpop.
Qed.

Lemma stack_ok_sendResponseCount (tag : Z) (s : State) :
  stack_ok s -> stack_ok (sendResponseCount tag s).
Proof.
  intros Hok. unfold sendResponseCount.
  pose proof (stack_ok_pop s Hok) as Hpop.
  destruct (pop s) as [count s1]. simpl in Hpop.
  match goal with
  | |- context [sendResponseCount_fill ?n ?i ?c ?f s1] =>
      pose proof (stack_ok_sendResponseCount_fill n i c f s1 Hpop) as Hfill;
      destruct (sendResponseCount_fill n i c f s1) as [frame s2]
  end.
  exact Hfill.
Qed.

Lemma stack_ok_queryInterface_chars (fuel : nat) :
  forall (stringIndex : Z) (interfaceId : string) (s : State),
  stack_ok s -> stack_ok (queryInterface_chars fuel stringIndex interfaceId s).
Proof.
  induction fuel as [|fuel IH]; intros stringIndex interfaceId s Hok; [exact Hok|].
  cbn [queryInterface_chars]. destruct (stringIndex >? -1); [|exact Hok].
  apply IH, stack_ok_push, Hok.
Qed.

Lemma stack_ok_queryInterface_entries (fuel : nat) :
  forall (index : Z) (s : State),
  stack_ok s -> stack_ok (queryInterface_entries fuel index s).
Proof.
  induction fuel as [|fuel IH]; intros index s Hok; [exact Hok|].
  cbn [queryInterface_entries]. destruct (index <? indexOfInterfaces s); [|exact Hok].
  apply IH, stack_ok_push, stack_ok_queryInterface_chars, Hok.
Qed.

Lemma stack_ok_queryInterface (tag : Z) (s : State) :
  stack_ok s -> stack_ok (queryInterface tag s).
Proof.
  intros Hok. unfold queryInterface.
  apply stack_ok_sendResponseCount, stack_ok_push, stack_ok_queryInterface_entries, Hok.
Qed.

Lemma stack_ok_pushArray_data (fuel : nat) :
  forall (i : Z) (s : State), stack_ok s -> stack_ok (pushArray_data fuel i s).
Proof.
  induction fuel as [|fuel IH]; intros i s Hok; [exact Hok|].
  cbn [pushArray_data]. destruct (i >? -1); [|exact Hok].
  unfold deref. apply IH, stack_ok_push. exact Hok.
Qed.

Lemma stack_ok_pushArray_skip (fuel : nat) :
  forall (i length : Z) (s : State),
  stack_ok s -> stack_ok (pushArray_skip fuel i length s).
Proof.
  induction fuel as [|fuel IH]; intros i length s Hok; [exact Hok|].
  cbn [pushArray_skip]. destruct (i <? length); [|exact Hok].
  destruct (_ >? _); [exact Hok | apply IH; exact Hok].
Qed.

Lemma stack_ok_pushArray (s : State) : stack_ok s -> stack_ok (pushArray s).
Proof.
  intros Hok. unfold pushArray, deref.
  apply stack_ok_pushArray_skip, stack_ok_pushArray_data.
  destruct (execution s =? frameTop s); exact Hok.
Qed.








(** ** The function table and the registry *)

Lemma tables_kept_refl (s : State) : tables_kept s s.
Proof. repeat split. Qed.

Lemma tables_kept_trans (s1 s2 s3 : State) :
  tables_kept s1 s2 -> tables_kept s2 s3 -> tables_kept s1 s3.
Proof.
  intros (A1 & A2 & A3 & A4 & A5) (B1 & B2 & B3 & B4 & B5).
  repeat split; congruence.
Qed.

Lemma tables_kept_push (b : Z) (s : State) : tables_kept s (push b s).
Proof. unfold push. destruct (_ =? _); repeat split. Qed.

Lemma tables_kept_pop (s : State) : tables_kept s (snd (pop s)).
Proof. unfold pop. destruct (_ =? _); repeat split. Qed.

Lemma tables_kept_sendResponseCount_fill (fuel : nat) :
  forall (i count : Z) (frame : list Z) (s : State),
  tables_kept s (snd (sendResponseCount_fill fuel i count frame s)).
Proof.
  induction fuel as [|fuel IH]; intros i count frame s; [apply tables_kept_refl|].
  cbn [sendResponseCount_fill]. destruct (i <? count); [|apply tables_kept_refl].
  pose proof (tables_kept_pop s) as Hpop.
  destruct (pop s) as [value s1].
  eapply tables_kept_trans; [exact Hpop | apply IH].
Qed.

Lemma tables_kept_sendResponseCount (tag : Z) (s : State) :
  tables_kept s (sendResponseCount tag s).
Proof.
  unfold sendResponseCount.
  pose proof (tables_kept_pop s) as Hpop.
  destruct (pop s) as [count s1]. simpl in Hpop.
  match goal with
  | |- context [sendResponseCount_fill ?n ?i ?c ?f s1] =>
      pose proof (tables_kept_sendResponseCount_fill n i c f s1) as Hfill;
      destruct (sendResponseCount_fill n i c f s1) as [frame s2]
  end.
  eapply tables_kept_trans; [exact Hpop|].
  eapply tables_kept_trans; [exact Hfill | repeat split].
Qed.

Lemma tables_kept_queryInterface_chars (fuel : nat) :
  forall (stringIndex : Z) (interfaceId : string) (s : State),
  tables_kept s (queryInterface_chars fuel stringIndex interfaceId s).
Proof.
  induction fuel as [|fuel IH]; intros stringIndex interfaceId s;
    [apply tables_kept_refl|].
  cbn [queryInterface_chars]. destruct (stringIndex >? -1); [|apply tables_kept_refl].
  eapply tables_kept_trans; [apply tables_kept_push | apply IH].
Qed.

Lemma tables_kept_queryInterface_entries (fuel : nat) :
  forall (index : Z) (s : State),
  tables_kept s (queryInterface_entries fuel index s).
Proof.
  induction fuel as [|fuel IH]; intros index s; [apply tables_kept_refl|].
  cbn [queryInterface_entries].
  destruct (index <? indexOfInterfaces s); [|apply tables_kept_refl].
  eapply tables_kept_trans; [apply tables_kept_queryInterface_chars|].
  eapply tables_kept_trans; [apply tables_kept_push | apply IH].
Qed.

Lemma tables_kept_queryInterface (tag : Z) (s : State) :
  tables_kept s (queryInterface tag s).
Proof.
  unfold queryInterface.
  eapply tables_kept_trans; [apply tables_kept_queryInterface_entries|].
  eapply tables_kept_trans; [apply tables_kept_push|].
  apply tables_kept_sendResponseCount.
Qed.








(** What [bind] does to [vtable], to the transport log and to
    [openFunctionIndex] when the slot is free. *)
Lemma bind_free_slot (interfaceId : string) (function : Fn) (s : State) :
  aget None (vtable s) (openFunctionIndex s) = None ->
  vtable (snd (bind interfaceId function s))
  = aset (vtable s) (openFunctionIndex s) (Some function)
  /\ sent (snd (bind interfaceId function s)) = sent s
  /\ openFunctionIndex (snd (bind interfaceId function s))
     = to_byte (openFunctionIndex s + 1)
  /\ fst (bind interfaceId function s) = openFunctionIndex s.
Proof.
  intros Hfree. unfold bind.
  destruct (negb (knownInterface interfaceId s)); simpl; rewrite Hfree; simpl; auto.
Qed.




(** X5: [bind] on a free slot installs the function under the id it
    returns: nothing is sent, every other slot is as before, and [run] with
    the returned id calls the function just bound. *)
Theorem bind_then_run (tag : Z) (native : nat -> State -> State)
    (interfaceId : string) (function : Fn) (s : State) :
  0 <= openFunctionIndex s < Z.of_nat (length (vtable s)) ->
  aget None (vtable s) (openFunctionIndex s) = None ->
  sent (snd (bind interfaceId function s)) = sent s
  /\ fst (bind interfaceId function s) = openFunctionIndex s
  /\ aget None (vtable (snd (bind interfaceId function s)))
       (fst (bind interfaceId function s)) = Some function
  /\ (forall j, j <> openFunctionIndex s ->
        aget None (vtable (snd (bind interfaceId function s))) j
        = aget None (vtable s) j)
  /\ run tag native (fst (bind interfaceId function s))
       (snd (bind interfaceId function s))
     = call tag native function (snd (bind interfaceId function s)).
Proof.
  intros Hopen Hfree.
  destruct (bind_free_slot interfaceId function s Hfree) as (Hv & Hsent & _ & Hid).
  assert (Hslot : aget None (vtable (snd (bind interfaceId function s)))
                    (fst (bind interfaceId function s)) = Some function).
  { rewrite Hv, Hid. apply aget_aset_eq. exact Hopen. }
  split; [exact Hsent|]. split; [exact Hid|]. split; [exact Hslot|]. split.
  - intros j Hj. rewrite Hv. apply aget_aset_ne. congruence.
  - unfold run. rewrite Hslot. reflexivity.
Qed.

Lemma bind_then_run_witness :
  0 <= openFunctionIndex example_setup < Z.of_nat (length (vtable example_setup))
  /\ aget None (vtable example_setup) (openFunctionIndex example_setup) = None
  /\ fst (bind "AAAA1" FnSendResponse example_setup) = 4
  /\ run example_tag no_natives (fst (bind "AAAA1" FnSendResponse example_setup))
       (snd (bind "AAAA1" FnSendResponse example_setup))
     = call example_tag no_natives FnSendResponse
         (snd (bind "AAAA1" FnSendResponse example_setup)).
Proof.
  assert (Hopen : 0 <= openFunctionIndex example_setup
                  < Z.of_nat (length (vtable example_setup))) by (simpl; lia).
  assert (Hfree : aget None (vtable example_setup) (openFunctionIndex example_setup)
                  = None) by reflexivity.
  destruct (bind_then_run example_tag no_natives "AAAA1" FnSendResponse example_setup
              Hopen Hfree) as (_ & H1 & _ & _ & H2).
  split; [exact Hopen|]. split; [exact Hfree|]. split; [exact H1 | exact H2].
Defined.

(** X6: [bind] and the registry.  After [bind] the interface id is known.
    If it was known before, the registry is untouched; if not, it takes the
    next entry, with the id [bind] returns as its start.  Entries made
    earlier are never changed, and an id that was known stays known. *)
Theorem bind_registers_interface (interfaceId : string) (function : Fn) (s : State)
    (seen : list string) :
  registry_ok s seen ->
  0 <= openFunctionIndex s < 255 ->
  (interfaceId ∈ seen \/ (length seen < 25)%nat) ->
  knownInterface interfaceId (snd (bind interfaceId function s)) = true
  /\ (forall other, knownInterface other s = true ->
        knownInterface other (snd (bind interfaceId function s)) = true)
  /\ (knownInterface interfaceId s = true ->
        indexOfInterfaces (snd (bind interfaceId function s)) = indexOfInterfaces s
        /\ interfaceIds (snd (bind interfaceId function s)) = interfaceIds s
        /\ interfaceStart (snd (bind interfaceId function s)) = interfaceStart s)
  /\ (knownInterface interfaceId s = false ->
        indexOfInterfaces (snd (bind interfaceId function s)) = indexOfInterfaces s + 1
        /\ aget EmptyString (interfaceIds (snd (bind interfaceId function s)))
             (indexOfInterfaces s) = interfaceId
        /\ aget 0 (interfaceStart (snd (bind interfaceId function s)))
             (indexOfInterfaces s) = fst (bind interfaceId function s))
  /\ (forall k, k <> indexOfInterfaces s ->
        aget EmptyString (interfaceIds (snd (bind interfaceId function s))) k
        = aget EmptyString (interfaceIds s) k
        /\ aget 0 (interfaceStart (snd (bind interfaceId function s))) k
           = aget 0 (interfaceStart s) k).
Proof.
  intros Hreg Hopen Hcap.
  destruct (bind_registry interfaceId function s seen Hreg Hopen Hcap)
    as (Hreg' & _ & Hid).
  pose proof (knownInterface_seen interfaceId s seen Hreg) as Hknown.
  assert (Hsub : forall x, x ∈ seen ->
            x ∈ (if decide (interfaceId ∈ seen) then seen else seen ++ [interfaceId])).
  { intros x Hx. destruct (decide (interfaceId ∈ seen)); [exact Hx|].
    apply elem_of_app. left. exact Hx. }
  split.
  { apply (knownInterface_seen _ _ _ Hreg').
    destruct (decide (interfaceId ∈ seen)) as [Hin|Hout]; [exact Hin|].
    apply elem_of_app. right. apply list_elem_of_singleton. reflexivity. }
  split.
  { intros other Hother. apply (knownInterface_seen _ _ _ Hreg'), Hsub.
    apply (knownInterface_seen _ _ _ Hreg). exact Hother. }
  destruct Hreg as (Hlen & Hlen' & Hn & _ & Hle).
  split; [|split].
  - intros Hk. unfold bind. rewrite Hk. simpl.
    destruct (aget None (vtable s) (openFunctionIndex s)); simpl; auto.
  - intros Hk.
    assert (Hout : ~ interfaceId ∈ seen).
    { intros Hin. apply Hknown in Hin. congruence. }
    destruct Hcap as [Hin|Hcap]; [contradiction|].
    rewrite Hid. unfold bind. rewrite Hk. simpl.
    destruct (aget None (vtable s) (openFunctionIndex s)); simpl;
      (split; [apply to_byte_id; unfold is_byte; lia|]);
      split; apply aget_aset_eq; lia.
  - intros k Hk. unfold bind.
    destruct (knownInterface interfaceId s); simpl;
      destruct (aget None (vtable s) (openFunctionIndex s)); simpl;
      try (split; reflexivity);
      split; apply aget_aset_ne; congruence.
Qed.

Lemma bind_registers_interface_witness :
  registry_ok two_interfaces_bound ["AAAA1"%string; "BBBB1"%string]
  /\ 0 <= openFunctionIndex two_interfaces_bound < 255
  /\ ("CCCC1"%string ∈ ["AAAA1"%string; "BBBB1"%string]
      \/ (length ["AAAA1"%string; "BBBB1"%string] < 25)%nat)
  /\ knownInterface "CCCC1" two_interfaces_bound = false
  /\ knownInterface "CCCC1" (snd (bind "CCCC1" (FnNative 3) two_interfaces_bound)) = true
  /\ aget 0 (interfaceStart (snd (bind "CCCC1" (FnNative 3) two_interfaces_bound))) 2
     = 7.
Proof.
  assert (Hreg : registry_ok two_interfaces_bound ["AAAA1"%string; "BBBB1"%string]).
  { repeat split; try reflexivity. simpl. lia. }
  assert (Hopen : 0 <= openFunctionIndex two_interfaces_bound < 255)
    by (change (openFunctionIndex two_interfaces_bound) with 7; lia).
  assert (Hcap : "CCCC1"%string ∈ ["AAAA1"%string; "BBBB1"%string]
                 \/ (length ["AAAA1"%string; "BBBB1"%string] < 25)%nat)
    by (right; simpl; lia).
  assert (Hnew : knownInterface "CCCC1" two_interfaces_bound = false) by reflexivity.
  destruct (bind_registers_interface "CCCC1" (FnNative 3) two_interfaces_bound _
              Hreg Hopen Hcap) as (H1 & _ & _ & H2 & _).
  destruct (H2 Hnew) as (_ & _ & H3).
  split; [exact Hreg|]. split; [exact Hopen|]. split; [exact Hcap|].
  split; [exact Hnew|]. split; [exact H1 | exact H3].
Defined.

(** A run of [bind] calls on a table that is free from [openFunctionIndex]
    on. *)
Lemma binds_install_from (calls : list (string * Fn)) :
  forall s : State,
  0 <= openFunctionIndex s ->
  openFunctionIndex s + Z.of_nat (length calls) <= Z.of_nat (length (vtable s)) ->
  Z.of_nat (length (vtable s)) <= 255 ->
  (forall j, openFunctionIndex s <= j -> aget None (vtable s) j = None) ->
  sent (binds calls s) = sent s
  /\ (forall k f, (snd <$> calls) !! k = Some f ->
        aget None (vtable (binds calls s)) (openFunctionIndex s + Z.of_nat k) = Some f)
  /\ (forall j, j < openFunctionIndex s ->
        aget None (vtable (binds calls s)) j = aget None (vtable s) j)
  /\ (forall j, openFunctionIndex s + Z.of_nat (length calls) <= j ->
        aget None (vtable (binds calls s)) j = None).
Proof.
  induction calls as [|[interfaceId function] calls IH]; intros s Hopen Hfit Hlen Hfree.
  - simpl. split; [reflexivity|]. split; [intros k f Hk; destruct k; discriminate|].
    split; [reflexivity|]. intros j Hj. apply Hfree. lia.
  - simpl length in Hfit.
    change (binds ((interfaceId, function) :: calls) s)
      with (binds calls (snd (bind interfaceId function s))).
    destruct (bind_free_slot interfaceId function s) as (Hv & Hsent & Hnext & _);
      [apply Hfree; lia|].
    rewrite to_byte_id in Hnext by (unfold is_byte; lia).
    destruct (IH (snd (bind interfaceId function s))) as (H1 & H2 & H3 & H4).
    + lia.
    + rewrite Hnext, Hv, length_aset. lia.
    + rewrite Hv, length_aset. exact Hlen.
    + intros j Hj. rewrite Hv, aget_aset_ne by lia. apply Hfree. lia.
    + rewrite Hnext in *. split; [congruence|]. split; [|split].
      * intros [|k] f Hk.
        -- injection Hk as <-. rewrite Z.add_0_r, H3 by lia.
           rewrite Hv. apply aget_aset_eq. lia.
        -- replace (openFunctionIndex s + Z.of_nat (S k))
             with (openFunctionIndex s + 1 + Z.of_nat k) by lia.
           apply H2. exact Hk.
      * intros j Hj. rewrite H3 by lia. rewrite Hv. apply aget_aset_ne. lia.
      * intros j Hj. simpl length in Hj. apply H4. lia.
Qed.

Lemma aget_replicate {A} (d : A) (n : nat) (i : Z) : aget d (replicate n d) i = d.
Proof.
  unfold aget. destruct (0 <=? i); [|reflexivity].
  destruct (replicate n d !! Z.to_nat i) as [x|] eqn:Hx; [|reflexivity].
  apply lookup_replicate in Hx. destruct Hx as [-> _]. reflexivity.
Qed.

Lemma setup_vtable (pushArrayId queryInterfaceId sendResponseId
    sendResponseCountId : Z) (mem : Z -> Z) :
  vtable (setup pushArrayId queryInterfaceId sendResponseId sendResponseCountId mem)
  = aset (aset (aset (aset (replicate 255 None) pushArrayId (Some FnPushArray))
                  queryInterfaceId (Some FnQueryInterface))
            sendResponseId (Some FnSendResponse))
      sendResponseCountId (Some FnSendResponseCount).
Proof. reflexivity. Qed.

(** X7: from the state [setup] leaves, with the built-in functions on ids
    below 4, a run of at most 251 [bind] calls for at most 25 interfaces
    never signals
    [FUNCTION_CONFLICT]: nothing is sent, the k-th function bound (counting
    from 0) sits in slot 4 + k, the slots below 4 are as [setup] left them
    and the slots behind the last function bound are free. *)
Theorem binds_install_in_order (pushArrayId queryInterfaceId sendResponseId
    sendResponseCountId : Z) (mem : Z -> Z) (calls : list (string * Fn)) :
  pushArrayId < 4 -> queryInterfaceId < 4 -> sendResponseId < 4 ->
  sendResponseCountId < 4 ->
  (length calls <= 251)%nat ->
  (length (remove_dups (fst <$> calls)) <= 25)%nat ->
  sent (binds calls (setup pushArrayId queryInterfaceId sendResponseId
                       sendResponseCountId mem)) = []
  /\ (forall k f, (snd <$> calls) !! k = Some f ->
        aget None (vtable (binds calls (setup pushArrayId queryInterfaceId
                             sendResponseId sendResponseCountId mem)))
          (4 + Z.of_nat k) = Some f)
  /\ (forall j, j < 4 ->
        aget None (vtable (binds calls (setup pushArrayId queryInterfaceId
                             sendResponseId sendResponseCountId mem))) j
        = aget None (vtable (setup pushArrayId queryInterfaceId sendResponseId
                               sendResponseCountId mem)) j)
  /\ (forall j, 4 + Z.of_nat (length calls) <= j ->
        aget None (vtable (binds calls (setup pushArrayId queryInterfaceId
                             sendResponseId sendResponseCountId mem))) j = None).
Proof.
  intros Hpa Hqi Hsr Hsc Hn _.
  set (s0 := setup pushArrayId queryInterfaceId sendResponseId sendResponseCountId mem).
  assert (Hlen : length (vtable s0) = 255%nat).
  { unfold s0. rewrite setup_vtable, !length_aset. apply length_replicate. }
  apply (binds_install_from calls s0).
  - simpl. lia.
  - rewrite Hlen. simpl. lia.
  - rewrite Hlen. lia.
  - intros j Hj. simpl in Hj. unfold s0.
    rewrite setup_vtable, !aget_aset_ne by lia. apply aget_replicate.
Qed.

Lemma binds_install_in_order_witness :
  1 < 4 /\ 0 < 4 /\ 2 < 4 /\ 3 < 4
  /\ (length two_interfaces <= 251)%nat
  /\ (length (remove_dups (fst <$> two_interfaces)) <= 25)%nat
  /\ sent (binds two_interfaces (setup 1 0 2 3 zero_memory)) = []
  /\ aget None (vtable (binds two_interfaces (setup 1 0 2 3 zero_memory))) (4 + 2)
     = Some (FnNative 2).
Proof.
  assert (Hn : (length two_interfaces <= 251)%nat) by (simpl; lia).
  assert (Hd : (length (remove_dups (fst <$> two_interfaces)) <= 25)%nat)
    by (vm_compute; lia).
  destruct (binds_install_in_order 1 0 2 3 zero_memory two_interfaces
              ltac:(lia) ltac:(lia) ltac:(lia) ltac:(lia) Hn Hd) as (H1 & H2 & _).
  split; [lia|]. split; [lia|]. split; [lia|]. split; [lia|].
  split; [exact Hn|]. split; [exact Hd|]. split; [exact H1|].
  exact (H2 2%nat (FnNative 2) eq_refl).
Defined.



(** ** Responses from the stack *)

Lemma stack_view_nil_top (s : State) :
  stack_ok s -> stack_view s = [] -> parameterStackTop s = -1.
Proof.
  intros Hok Hview. pose proof (stack_view_length s Hok) as Hlen.
  rewrite Hview in Hlen. simpl in Hlen. lia.
Qed.

(** The loop of [sendResponseCount] on a stack that holds fewer values than
    it is asked for: the values there are go into the frame, each missing one
    is an underflow and the byte 255. *)
Lemma sendResponseCount_fill_short (fuel : nat) :
  forall (i count : Z) (frame prefix : list Z) (s : State) (vs : list Z),
  stack_ok s -> stack_view s = vs -> (length vs <= fuel)%nat ->
  count = i + Z.of_nat fuel -> 0 <= i ->
  frame = prefix ++ replicate fuel 0 -> Z.of_nat (length prefix) = 3 + i ->
  sendResponseCount_fill fuel i count frame s
  = (prefix ++ (to_byte <$> vs) ++ replicate (fuel - length vs) 255,
     set_sent (sent s ++ replicate (fuel - length vs)
                           (SendError FUNCTIONS_ERROR_STACK_UNDERFLOW))
       (set_stack (-1) (parameterStack s) s)).
Proof.
  induction fuel as [|fuel IH];
    intros i count frame prefix s vs Hok Hview Hlen Hcount Hi Hframe Hprefix.
  - destruct vs; [|simpl in Hlen; lia]. simpl. rewrite !app_nil_r. subst frame.
    pose proof (stack_view_nil_top s Hok Hview) as Htop.
    unfold set_sent, set_stack. destruct s; simpl in *. subst.
    rewrite ?app_nil_r. reflexivity.
  - cbn [sendResponseCount_fill].
    destruct (Z.ltb_spec i count); [|lia].
    assert (Hframe' : forall v, aset frame (3 + i) v
                                = (prefix ++ [v]) ++ replicate fuel 0).
    { intros v. subst frame. unfold aset. destruct (Z.leb_spec 0 (3 + i)); [|lia].
      replace (Z.to_nat (3 + i)) with (length prefix + 0)%nat by lia.
      rewrite insert_app_r. simpl. rewrite <- app_assoc. reflexivity. }
    destruct vs as [|v vs].
    + pose proof (stack_view_nil_top s Hok Hview) as Htop.
      unfold pop. rewrite Htop. simpl.
      rewrite (IH (i + 1) count _ (prefix ++ [to_byte (-1)]) _ []).
      * simpl. rewrite Nat.sub_0_r, <- app_assoc. simpl.
        unfold sendError, set_sent, set_stack. simpl. rewrite <- app_assoc.
        reflexivity.
      * exact Hok.
      * unfold stack_view in *. simpl. exact Hview.
      * simpl. lia.
      * lia.
      * lia.
      * apply Hframe'.
      * rewrite length_app. simpl. lia.
    + destruct (pop_view s v vs Hok Hview) as (Hpop & Hok1 & Hview1).
      rewrite Hpop in *. simpl in Hok1, Hview1. simpl in Hlen.
      rewrite (IH (i + 1) count _ (prefix ++ [to_byte v]) _ vs Hok1 Hview1).
      * simpl. rewrite <- app_assoc. reflexivity.
      * lia.
      * lia.
      * lia.
      * apply Hframe'.
      * rewrite length_app. simpl. lia.
Qed.

(** X9: [sendResponseCount] on a stack that holds a count [c] between 0 and
    127 and below it at least [c] values sends exactly one frame, made of the
    tag, [callerSequence], [c] and the [c] values from the top one down, and
    takes the count and the values off the stack; what lies below stays. *)
Theorem sendResponseCount_frame (tag : Z) (s : State) (c : Z) (vs rest : list Z) :
  stack_ok s -> stack_view s = c :: vs ++ rest ->
  0 <= c <= 127 -> Z.of_nat (length vs) = c ->
  sent (sendResponseCount tag s)
  = sent s ++ [SendFrame ([tag; callerSequence s; c] ++ (to_byte <$> vs))]
  /\ stack_view (sendResponseCount tag s) = rest
  /\ parameterStackTop (sendResponseCount tag s) = parameterStackTop s - 1 - c.
Proof.
  intros Hok Hview Hc Hlen.
  destruct (sendResponseCount_view tag s c vs rest Hok Hview Hc Hlen) as (Heq & Hrest).
  split; [rewrite Heq; reflexivity|]. split; [exact Hrest|].
  rewrite Heq. reflexivity.
Qed.

Lemma sendResponseCount_frame_witness :
  stack_ok (pushes [9; 8; 7; 2] (initial zero_memory))
  /\ stack_view (pushes [9; 8; 7; 2] (initial zero_memory)) = 2 :: [7; 8] ++ [9]
  /\ 0 <= 2 <= 127 /\ Z.of_nat (length [7; 8]) = 2
  /\ sent (sendResponseCount example_tag (pushes [9; 8; 7; 2] (initial zero_memory)))
     = [SendFrame [125; 0; 2; 7; 8]]
  /\ stack_view (sendResponseCount example_tag
                   (pushes [9; 8; 7; 2] (initial zero_memory))) = [9].
Proof.
  assert (Hok : stack_ok (pushes [9; 8; 7; 2] (initial zero_memory)))
    by (split; simpl; [reflexivity | lia]).
  assert (Hview : stack_view (pushes [9; 8; 7; 2] (initial zero_memory))
                  = 2 :: [7; 8] ++ [9]) by reflexivity.
  assert (Hc : 0 <= 2 <= 127) by lia.
  assert (Hlen : Z.of_nat (length [7; 8]) = 2) by reflexivity.
  destruct (sendResponseCount_frame example_tag _ 2 [7; 8] [9] Hok Hview Hc Hlen)
    as (H1 & H2 & _).
  split; [exact Hok|]. split; [exact Hview|]. split; [exact Hc|].
  split; [exact Hlen|]. split; [exact H1 | exact H2].
Defined.

(** X10: [sendResponseCount] with a count larger than what the stack holds.
    When the count [c] lies on [k] values only, [k < c], the frame is sent
    all the same, with the length byte [c] and [c] payload bytes: the [k]
    values, then 255 for each missing one.  Before the frame go [c - k]
    calls [sendError(FUNCTIONS_ERROR_STACK_UNDERFLOW)], and the stack is left
    empty. *)
Theorem sendResponseCount_short_stack (tag : Z) (s : State) (c : Z) (vs : list Z) :
  stack_ok s -> stack_view s = c :: vs ->
  0 <= c <= 127 -> Z.of_nat (length vs) < c ->
  sent (sendResponseCount tag s)
  = sent s
    ++ replicate (Z.to_nat c - length vs) (SendError FUNCTIONS_ERROR_STACK_UNDERFLOW)
    ++ [SendFrame ([tag; callerSequence s; c] ++ (to_byte <$> vs)
                   ++ replicate (Z.to_nat c - length vs) 255)]
  /\ parameterStackTop (sendResponseCount tag s) = -1.
Proof.
  intros Hok Hview Hc Hlen. unfold sendResponseCount.
  destruct (pop_view s c vs Hok Hview) as (Hpop & Hok1 & Hview1).
  rewrite Hpop in *. simpl in Hok1, Hview1.
  rewrite (to_byte_id (3 + c)) by (unfold is_byte; lia).
  rewrite (to_byte_id c) by (unfold is_byte; lia).
  rewrite (sendResponseCount_fill_short (Z.to_nat c) 0 c _
             [tag; callerSequence s; c] _ vs Hok1 Hview1).
  - simpl. rewrite <- app_assoc. split; reflexivity.
  - lia.
  - lia.
  - lia.
  - replace (Z.to_nat (3 + c)) with (S (S (S (Z.to_nat c)))) by lia. reflexivity.
  - reflexivity.
Qed.

Lemma sendResponseCount_short_stack_witness :
  stack_ok (pushes [7; 3] (initial zero_memory))
  /\ stack_view (pushes [7; 3] (initial zero_memory)) = 3 :: [7]
  /\ 0 <= 3 <= 127 /\ Z.of_nat (length [7]) < 3
  /\ sent (sendResponseCount example_tag (pushes [7; 3] (initial zero_memory)))
     = [SendError FUNCTIONS_ERROR_STACK_UNDERFLOW;
        SendError FUNCTIONS_ERROR_STACK_UNDERFLOW;
        SendFrame [125; 0; 3; 7; 255; 255]].
Proof.
  assert (Hok : stack_ok (pushes [7; 3] (initial zero_memory)))
    by (split; simpl; [reflexivity | lia]).
  assert (Hview : stack_view (pushes [7; 3] (initial zero_memory)) = 3 :: [7])
    by reflexivity.
  assert (Hc : 0 <= 3 <= 127) by lia.
  assert (Hlen : Z.of_nat (length [7]) < 3) by (simpl; lia).
  destruct (sendResponseCount_short_stack example_tag _ 3 [7] Hok Hview Hc Hlen)
    as (H1 & _).
  split; [exact Hok|]. split; [exact Hview|]. split; [exact Hc|].
  split; [exact Hlen | exact H1].
Defined.

(** X11: [sendResponse()] answers with the byte on top of the stack.  On a
    stack that is neither empty nor full it sends one frame, the tag,
    [callerSequence], 1 and that byte, and takes the byte off the stack. *)
Theorem sendResponse_top_byte (tag : Z) (s : State) (v : Z) (rest : list Z) :
  stack_ok s -> stack_view s = v :: rest -> parameterStackTop s < 128 ->
  sent (sendResponse tag s)
  = sent s ++ [SendFrame [tag; callerSequence s; 1; to_byte v]]
  /\ stack_view (sendResponse tag s) = rest
  /\ parameterStackTop (sendResponse tag s) = parameterStackTop s - 1.
Proof.
  intros Hok Hview Hroom. unfold sendResponse.
  destruct (pushes_room [1] s Hok) as (stack & Heq & Hok1 & Hview1); [simpl; lia|].
  change (pushes [1] s) with (push 1 s) in *.
  simpl in Hview1. rewrite Hview in Hview1.
  change (to_int8 1 :: v :: rest) with (1 :: [v] ++ rest) in Hview1.
  destruct (sendResponseCount_view tag _ 1 [v] rest Hok1 Hview1) as (Hsend & Hrest);
    [lia | reflexivity |].
  rewrite Hsend, Heq. simpl.
  split; [reflexivity|]. split; [|lia].
  rewrite Hsend, Heq in Hrest. exact Hrest.
Qed.

Lemma sendResponse_top_byte_witness :
  stack_ok (pushes [9; -2] (initial zero_memory))
  /\ stack_view (pushes [9; -2] (initial zero_memory)) = -2 :: [9]
  /\ parameterStackTop (pushes [9; -2] (initial zero_memory)) < 128
  /\ sent (sendResponse example_tag (pushes [9; -2] (initial zero_memory)))
     = [SendFrame [125; 0; 1; 254]]
  /\ stack_view (sendResponse example_tag (pushes [9; -2] (initial zero_memory))) = [9].
Proof.
  assert (Hok : stack_ok (pushes [9; -2] (initial zero_memory)))
    by (split; simpl; [reflexivity | lia]).
  assert (Hview : stack_view (pushes [9; -2] (initial zero_memory)) = -2 :: [9])
    by reflexivity.
  assert (Hroom : parameterStackTop (pushes [9; -2] (initial zero_memory)) < 128)
    by (simpl; lia).
  destruct (sendResponse_top_byte example_tag _ (-2) [9] Hok Hview Hroom)
    as (H1 & H2 & _).
  split; [exact Hok|]. split; [exact Hview|]. split; [exact Hroom|].
  split; [exact H1 | exact H2].
Defined.

(** X12: [sendResponse()] on an empty stack still sends a frame: after one
    [sendError(FUNCTIONS_ERROR_STACK_UNDERFLOW)] goes the frame with length
    byte 1 and payload byte 255, and the stack is empty again. *)
Theorem sendResponse_empty_stack (tag : Z) (s : State) :
  stack_ok s -> parameterStackTop s = -1 ->
  sent (sendResponse tag s)
  = sent s ++ [SendError FUNCTIONS_ERROR_STACK_UNDERFLOW;
               SendFrame [tag; callerSequence s; 1; 255]]
  /\ parameterStackTop (sendResponse tag s) = -1.
Proof.
  intros Hok Hempty. unfold sendResponse.
  destruct (pushes_room [1] s Hok) as (stack & Heq & Hok1 & Hview1); [simpl; lia|].
  change (pushes [1] s) with (push 1 s) in *.
  assert (Hnil : stack_view s = []) by (unfold stack_view; rewrite Hempty; reflexivity).
  simpl in Hview1. rewrite Hnil in Hview1.
  unfold sendResponseCount.
  destruct (pop_view _ _ _ Hok1 Hview1) as (Hpop & Hok2 & Hview2).
  rewrite Hpop in *. simpl in Hok2, Hview2.
  change (to_byte (3 + to_int8 1)) with 4. change (to_byte (to_int8 1)) with 1.
  rewrite (sendResponseCount_fill_short 1 0 1 _
             [tag; callerSequence (push 1 s); 1] _ [] Hok2 Hview2);
    [|simpl; lia|reflexivity|lia|reflexivity|reflexivity].
  rewrite Heq. simpl. rewrite <- app_assoc. split; reflexivity.
Qed.

Lemma sendResponse_empty_stack_witness :
  stack_ok (initial zero_memory) /\ parameterStackTop (initial zero_memory) = -1
  /\ sent (sendResponse example_tag (initial zero_memory))
     = [SendError FUNCTIONS_ERROR_STACK_UNDERFLOW; SendFrame [125; 0; 1; 255]].
Proof.
  assert (Hok : stack_ok (initial zero_memory)) by apply stack_ok_initial.
  destruct (sendResponse_empty_stack example_tag (initial zero_memory) Hok eq_refl)
    as (H1 & _).
  split; [exact Hok|]. split; [reflexivity | exact H1].
Defined.

(** X13: [sendResponse()] on a full stack.  The count 1 it pushes is dropped
    with [FUNCTIONS_ERROR_STACK_OVERFLOW], and [sendResponseCount] takes the
    byte that was on top as the count: with [c] on top, between 0 and 127,
    the frame carries the [c] values below it. *)
Theorem sendResponse_full_stack (tag : Z) (s : State) (c : Z) (vs rest : list Z) :
  stack_ok s -> parameterStackTop s = 128 ->
  stack_view s = c :: vs ++ rest -> 0 <= c <= 127 -> Z.of_nat (length vs) = c ->
  sent (sendResponse tag s)
  = sent s ++ [SendError FUNCTIONS_ERROR_STACK_OVERFLOW;
               SendFrame ([tag; callerSequence s; c] ++ (to_byte <$> vs))]
  /\ stack_view (sendResponse tag s) = rest.
Proof.
  intros Hok Hfull Hview Hc Hlen. unfold sendResponse.
  rewrite push_full by exact Hfull.
  assert (Hok1 : stack_ok (sendError FUNCTIONS_ERROR_STACK_OVERFLOW s)) by exact Hok.
  assert (Hview1 : stack_view (sendError FUNCTIONS_ERROR_STACK_OVERFLOW s)
                   = c :: vs ++ rest) by exact Hview.
  destruct (sendResponseCount_view tag _ c vs rest Hok1 Hview1 Hc Hlen)
    as (Hsend & Hrest).
  split; [|exact Hrest].
  rewrite Hsend. simpl. rewrite <- app_assoc. reflexivity.
Qed.

Lemma sendResponse_full_stack_witness :
  stack_ok full_stack /\ parameterStackTop full_stack = 128
  /\ stack_view full_stack = 7 :: replicate 7 7 ++ replicate 121 7
  /\ 0 <= 7 <= 127 /\ Z.of_nat (length (replicate 7 7)) = 7
  /\ sent (sendResponse example_tag full_stack)
     = [SendError FUNCTIONS_ERROR_STACK_OVERFLOW;
        SendFrame [125; 0; 7; 7; 7; 7; 7; 7; 7; 7]].
Proof.
  assert (Hok : stack_ok full_stack)
    by (split; [reflexivity | vm_compute; split; discriminate]).
  assert (Hfull : parameterStackTop full_stack = 128) by reflexivity.
  assert (Hview : stack_view full_stack = 7 :: replicate 7 7 ++ replicate 121 7)
    by (vm_compute; reflexivity).
  assert (Hc : 0 <= 7 <= 127) by lia.
  assert (Hlen : Z.of_nat (length (replicate 7 7)) = 7) by reflexivity.
  destruct (sendResponse_full_stack example_tag full_stack 7 (replicate 7 7)
              (replicate 121 7) Hok Hfull Hview Hc Hlen) as (H1 & _).
  split; [exact Hok|]. split; [exact Hfull|]. split; [exact Hview|].
  split; [exact Hc|]. split; [exact Hlen | exact H1].
Defined.

(** X14: [queryInterface] can be asked again.  Two calls in a row send the
    same frame twice and leave the stack as one call does: the response does
    not depend on earlier queries. *)
Theorem queryInterface_twice (tag : Z) (s : State) :
  stack_ok s -> 0 <= indexOfInterfaces s ->
  parameterStackTop s + 6 * indexOfInterfaces s + 1 <= 128 ->
  sent (queryInterface tag (queryInterface tag s))
  = sent s
    ++ [SendFrame ([tag; callerSequence s; 6 * indexOfInterfaces s] ++ query_payload s);
        SendFrame ([tag; callerSequence s; 6 * indexOfInterfaces s] ++ query_payload s)]
  /\ stack_view (queryInterface tag (queryInterface tag s)) = stack_view s.
Proof.
  intros Hok Hn Hroom.
  destruct (queryInterface_sends tag s Hok Hn Hroom) as (stack & Heq & Hview & _).
  destruct (tables_kept_queryInterface tag s) as (_ & _ & Hidx & Hids & Hstarts).
  assert (Hseq : callerSequence (queryInterface tag s) = callerSequence s)
    by (rewrite Heq; reflexivity).
  assert (Htop : parameterStackTop (queryInterface tag s) = parameterStackTop s)
    by (rewrite Heq; reflexivity).
  assert (Hpayload : query_payload (queryInterface tag s) = query_payload s).
  { unfold query_payload, interface_entry. rewrite Hidx, Hids, Hstarts. reflexivity. }
  destruct (queryInterface_sends tag (queryInterface tag s)) as (stack2 & Heq2 & Hview2 & _).
  - apply stack_ok_queryInterface, Hok.
  - rewrite Hidx. exact Hn.
  - rewrite Hidx, Htop. exact Hroom.
  - split; [|rewrite Hview2; exact Hview].
    rewrite Heq2. unfold sendFrame, set_sent, set_stack. cbn [sent].
    rewrite Hseq, Hidx, Hpayload. rewrite Heq. simpl. rewrite <- app_assoc.
    reflexivity.
Qed.

Lemma queryInterface_twice_witness :
  stack_ok two_interfaces_bound
  /\ 0 <= indexOfInterfaces two_interfaces_bound
  /\ parameterStackTop two_interfaces_bound
     + 6 * indexOfInterfaces two_interfaces_bound + 1 <= 128
  /\ sent (queryInterface example_tag (queryInterface example_tag two_interfaces_bound))
     = [SendFrame [125; 0; 12; 6; 66; 66; 66; 66; 49; 4; 65; 65; 65; 65; 49];
        SendFrame [125; 0; 12; 6; 66; 66; 66; 66; 49; 4; 65; 65; 65; 65; 49]].
Proof.
  assert (Hok : stack_ok two_interfaces_bound) by (split; simpl; [reflexivity | lia]).
  assert (Hn : 0 <= indexOfInterfaces two_interfaces_bound) by (vm_compute; discriminate).
  assert (Hroom : parameterStackTop two_interfaces_bound
                  + 6 * indexOfInterfaces two_interfaces_bound + 1 <= 128)
    by (vm_compute; discriminate).
  destruct (queryInterface_twice example_tag two_interfaces_bound Hok Hn Hroom)
    as (H1 & _).
  split; [exact Hok|]. split; [exact Hn|]. split; [exact Hroom | exact H1].
Defined.

(** ** Arrays in the frame *)

Lemma to_int8_to_byte (z : Z) : to_int8 (to_byte z) = to_int8 z.
Proof. unfold to_int8, to_byte. rewrite Zplus_mod_idemp_l. reflexivity. Qed.

(** X15: [pushArray] on a well-formed frame.  When the length byte [n] and
    the [n] bytes behind it lie below [frameTop] and the stack has [n] free
    cells, the [n] bytes end up on the stack with the first one on top, so
    that popping returns them in the order of the frame; [execution] stands
    behind the array, nothing is sent, and every byte read lies in the
    frame. *)
Theorem pushArray_array (s : State) (n : Z) :
  stack_ok s ->
  to_byte (memory s (execution s)) = n ->
  execution s + 1 + n <= frameTop s ->
  parameterStackTop s + n <= 128 ->
  execution (pushArray s) = execution s + 1 + n
  /\ frameTop (pushArray s) = frameTop s
  /\ stack_view (pushArray s)
     = ((fun k => to_int8 (memory s (execution s + 1 + k))) <$> seqZ 0 n)
       ++ stack_view s
  /\ parameterStackTop (pushArray s) = parameterStackTop s + n
  /\ sent (pushArray s) = sent s
  /\ exists new,
       reads (pushArray s) = reads s ++ new
       /\ Forall (fun a => execution s <= a < frameTop s) new.
Proof.
  intros Hok Hlength Hin Hroom.
  pose proof (to_byte_range (memory s (execution s))) as Hbyte.
  unfold is_byte in Hbyte. rewrite Hlength in Hbyte.
  set (bytes := (fun k => to_byte (memory s (execution s + 1 + k)))
                  <$> reverse (seqZ 0 n)).
  assert (Hlen : Z.of_nat (length bytes) = n).
  { unfold bytes. rewrite length_fmap, length_reverse, length_seqZ. lia. }
  destruct (pushes_room bytes s Hok) as (stack & Heq & Hok' & Hview); [lia|].
  rewrite (pushArray_in_frame s n Hlength Hin). fold bytes.
  split; [reflexivity|]. split; [rewrite Heq; reflexivity|]. split; [|split; [|split]].
  - unfold stack_view in *. simpl. simpl in Hview. rewrite Hview. f_equal.
    unfold bytes. rewrite <- !list_fmap_compose, <- fmap_reverse, reverse_involutive.
    apply list_fmap_ext. intros i k _. simpl. apply to_int8_to_byte.
  - simpl. rewrite Heq. simpl. lia.
  - simpl. rewrite Heq. reflexivity.
  - eexists. split; [simpl; reflexivity|].
    constructor; [lia|].
    apply Forall_fmap, Forall_forall. intros k Hk. simpl.
    rewrite elem_of_reverse, elem_of_seqZ in Hk. lia.
Qed.

Lemma pushArray_array_witness :
  stack_ok three_byte_array
  /\ to_byte (memory three_byte_array (execution three_byte_array)) = 3
  /\ execution three_byte_array + 1 + 3 <= frameTop three_byte_array
  /\ parameterStackTop three_byte_array + 3 <= 128
  /\ execution (pushArray three_byte_array) = 4
  /\ stack_view (pushArray three_byte_array) = [16; 32; 48]
  /\ sent (pushArray three_byte_array) = [].
Proof.
  assert (Hok : stack_ok three_byte_array) by (split; simpl; [reflexivity | lia]).
  assert (Hin : execution three_byte_array + 1 + 3 <= frameTop three_byte_array)
    by (simpl; lia).
  assert (Hroom : parameterStackTop three_byte_array + 3 <= 128) by (simpl; lia).
  destruct (pushArray_array three_byte_array 3 Hok eq_refl Hin Hroom)
    as (H1 & _ & H2 & _ & H3 & _).
  split; [exact Hok|]. split; [reflexivity|]. split; [exact Hin|].
  split; [exact Hroom|]. split; [exact H1|]. split; [exact H2 | exact H3].
Defined.

(** X16: an array pushed by [pushArray] is sent back by
    [sendResponseCount].  When the frame holds the length byte [n + 1], the
    count [n] (at most 127) and [n] data bytes, [pushArray] followed by
    [sendResponseCount] sends one frame with the length byte [n] and exactly
    these data bytes, in the order of the frame, and the stack is as it was
    before. *)
Theorem pushArray_then_sendResponseCount (tag : Z) (s : State) (n : Z) :
  stack_ok s ->
  0 <= n <= 127 ->
  to_byte (memory s (execution s)) = n + 1 ->
  to_byte (memory s (execution s + 1)) = n ->
  execution s + 2 + n <= frameTop s ->
  parameterStackTop s + n + 1 <= 128 ->
  sent (sendResponseCount tag (pushArray s))
  = sent s ++ [SendFrame ([tag; callerSequence s; n]
                          ++ ((fun k => to_byte (memory s (execution s + 2 + k)))
                                <$> seqZ 0 n))]
  /\ stack_view (sendResponseCount tag (pushArray s)) = stack_view s
  /\ execution (sendResponseCount tag (pushArray s)) = execution s + 2 + n.
Proof.
  intros Hok Hn Hlength Hcount Hin Hroom.
  set (bytes := (fun k => to_byte (memory s (execution s + 1 + k)))
                  <$> reverse (seqZ 0 (n + 1))).
  assert (Hlen : Z.of_nat (length bytes) = n + 1).
  { unfold bytes. rewrite length_fmap, length_reverse, length_seqZ. lia. }
  destruct (pushes_room bytes s Hok) as (stack & Heq & Hok' & Hview); [lia|].
  assert (Hrun : pushArray s
                 = set_execution (execution s + 1 + (n + 1))
                     (set_reads (reads s ++ execution s
                                 :: ((fun k => execution s + 1 + k)
                                       <$> reverse (seqZ 0 (n + 1))))
                        (pushes bytes s)))
    by (apply pushArray_in_frame; [exact Hlength | lia]).
  assert (Hview' : stack_view (pushArray s)
                   = n :: ((fun k => to_int8 (memory s (execution s + 2 + k)))
                             <$> seqZ 0 n) ++ stack_view s).
  { rewrite Hrun. unfold stack_view in *. simpl. simpl in Hview. rewrite Hview.
    unfold bytes. rewrite <- !list_fmap_compose, <- fmap_reverse, reverse_involutive.
    rewrite seqZ_cons by lia. rewrite fmap_cons. simpl.
    replace (Z.pred (n + 1)) with n by lia.
    rewrite Z.add_0_r, Hcount, (to_int8_id n) by (unfold is_int8; lia).
    f_equal. f_equal.
    replace (seqZ (Z.succ 0) n) with (Z.add 1 <$> seqZ 0 n)
      by (rewrite fmap_add_seqZ; reflexivity).
    rewrite <- list_fmap_compose.
    apply list_fmap_ext. intros i k _. simpl. rewrite to_int8_to_byte.
    do 2 f_equal. lia. }
  assert (Hok1 : stack_ok (pushArray s)) by (apply stack_ok_pushArray; exact Hok).
  destruct (sendResponseCount_view tag (pushArray s) n _ _ Hok1 Hview')
    as (Hsend & Hrest); [lia | rewrite length_fmap, length_seqZ; lia |].
  split; [|split; [exact Hrest|]].
  - rewrite Hsend, Hrun, Heq. simpl. do 6 f_equal.
    rewrite <- ?list_fmap_compose. apply list_fmap_ext. intros i k _. simpl.
    rewrite to_byte_to_int8. reflexivity.
  - rewrite Hsend, Hrun. simpl. lia.
Qed.

(** The frame 2, 1, 0x55 behind [execution]: an array of two bytes, the
    count 1 and one data byte. *)
Lemma pushArray_then_sendResponseCount_witness :
  stack_ok (set_frame 0 9 3 (initial (frame_memory [2; 1; 85] 0)))
  /\ 0 <= 1 <= 127
  /\ sent (sendResponseCount example_tag
             (pushArray (set_frame 0 9 3 (initial (frame_memory [2; 1; 85] 0)))))
     = [SendFrame [125; 9; 1; 85]].
Proof.
  assert (Hok : stack_ok (set_frame 0 9 3 (initial (frame_memory [2; 1; 85] 0))))
    by (split; simpl; [reflexivity | lia]).
  assert (Hn : 0 <= 1 <= 127) by lia.
  destruct (pushArray_then_sendResponseCount example_tag
              (set_frame 0 9 3 (initial (frame_memory [2; 1; 85] 0))) 1
              Hok Hn eq_refl eq_refl ltac:(simpl; lia) ltac:(simpl; lia))
    as (H1 & _).
  split; [exact Hok|]. split; [exact Hn | exact H1].
Defined.

(** The second loop of [pushArray], when the bytes to skip do not all lie in
    the frame: it stops one byte above [frameTop] and reports. *)
Lemma pushArray_skip_overrun (fuel : nat) :
  forall (i length : Z) (s : State),
  0 <= i -> length - i <= Z.of_nat fuel ->
  execution s <= frameTop s -> frameTop s < execution s + (length - i) ->
  pushArray_skip fuel i length s
  = sendError FUNCTIONS_ERROR_FRAME_TOO_SMALL (set_execution (frameTop s + 1) s).
Proof.
  induction fuel as [|fuel IH]; intros i length s Hi Hfuel Hle Hover; [simpl in Hfuel; lia|].
  cbn [pushArray_skip]. destruct (Z.ltb_spec i length); [|lia].
  simpl. destruct (Z.gtb_spec (execution s + 1) (frameTop s)).
  - replace (execution s + 1) with (frameTop s + 1) by lia. reflexivity.
  - rewrite IH by (simpl; lia). reflexivity.
Qed.

(** [pushArray] on a frame that ends before the array it announces does. *)
Lemma pushArray_overrun (s : State) (length : Z) :
  to_byte (memory s (execution s)) = length ->
  execution s < frameTop s ->
  frameTop s < execution s + 1 + length ->
  pushArray s
  = sendError FUNCTIONS_ERROR_FRAME_TOO_SMALL
      (set_execution (frameTop s + 1)
         (set_reads (reads s ++ execution s
                     :: ((fun k => execution s + 1 + k) <$> reverse (seqZ 0 length)))
            (pushes ((fun k => to_byte (memory s (execution s + 1 + k)))
                       <$> reverse (seqZ 0 length)) s))).
Proof.
  intros Hlength Hbelow Hout.
  pose proof (to_byte_range (memory s (execution s))) as Hbyte.
  unfold is_byte in Hbyte. rewrite Hlength in Hbyte.
  unfold pushArray.
  destruct (Z.eqb_spec (execution s) (frameTop s)); [lia|].
  unfold deref at 1. rewrite Hlength.
  replace (length - 1) with (Z.of_nat (Z.to_nat length) - 1) by lia.
  rewrite pushArray_data_pushes. simpl. rewrite Z2Nat.id by lia.
  rewrite pushes_set_execution, pushes_set_reads.
  destruct (pushes_frame ((fun k => to_byte (memory s (execution s + 1 + k)))
                            <$> reverse (seqZ 0 length)) s) as (_ & Htop & _).
  rewrite pushArray_skip_overrun.
  - unfold sendError, set_sent, set_execution, set_reads. simpl.
    rewrite <- app_assoc, Htop. reflexivity.
  - lia.
  - lia.
  - simpl. rewrite Htop. lia.
  - simpl. rewrite Htop. lia.
Qed.

(** X17: how far [pushArray] moves [execution].  Entered below [frameTop],
    it leaves [frameTop] as it is and [execution] at least one byte further
    and at most one byte above [frameTop], whatever the length byte says.
    If the array it announces fits, [execution] stands right behind it; if
    not, [execution] stands one byte above [frameTop] and the last thing sent
    is [FUNCTIONS_ERROR_FRAME_TOO_SMALL]. *)
Theorem pushArray_cursor (s : State) :
  execution s < frameTop s ->
  frameTop (pushArray s) = frameTop s
  /\ execution s + 1 <= execution (pushArray s) <= frameTop s + 1
  /\ (execution s + 1 + to_byte (memory s (execution s)) <= frameTop s ->
        execution (pushArray s)
        = execution s + 1 + to_byte (memory s (execution s)))
  /\ (frameTop s < execution s + 1 + to_byte (memory s (execution s)) ->
        execution (pushArray s) = frameTop s + 1
        /\ exists before,
             sent (pushArray s)
             = before ++ [SendError FUNCTIONS_ERROR_FRAME_TOO_SMALL]).
Proof.
  intros Hbelow.
  pose proof (to_byte_range (memory s (execution s))) as Hbyte. unfold is_byte in Hbyte.
  destruct (pushes_frame ((fun k => to_byte (memory s (execution s + 1 + k)))
                            <$> reverse (seqZ 0 (to_byte (memory s (execution s))))) s)
    as (_ & Htop & _).
  destruct (Z_le_gt_dec (execution s + 1 + to_byte (memory s (execution s)))
              (frameTop s)) as [Hin|Hout].
  - rewrite (pushArray_in_frame s _ eq_refl Hin). simpl. rewrite Htop.
    split; [reflexivity|]. split; [lia|]. split; [reflexivity | intros; lia].
  - rewrite (pushArray_overrun s _ eq_refl Hbelow) by lia. simpl. rewrite Htop.
    split; [reflexivity|]. split; [lia|]. split; [intros; lia|].
    intros _. split; [reflexivity|]. eexists. reflexivity.
Qed.

Lemma pushArray_cursor_witness :
  execution short_frame < frameTop short_frame
  /\ frameTop short_frame
     < execution short_frame + 1 + to_byte (memory short_frame (execution short_frame))
  /\ execution (pushArray short_frame) = frameTop short_frame + 1
  /\ exists before,
       sent (pushArray short_frame)
       = before ++ [SendError FUNCTIONS_ERROR_FRAME_TOO_SMALL].
Proof.
  assert (Hbelow : execution short_frame < frameTop short_frame) by (simpl; lia).
  assert (Hout : frameTop short_frame
                 < execution short_frame + 1
                   + to_byte (memory short_frame (execution short_frame)))
    by (vm_compute; reflexivity).
  destruct (pushArray_cursor short_frame Hbelow) as (_ & _ & _ & H).
  split; [exact Hbelow|]. split; [exact Hout | exact (H Hout)].
Defined.

(** A run of pushes on a full stack: every value is dropped. *)
Lemma pushes_full (bs : list Z) (s : State) :
  parameterStackTop s = 128 ->
  pushes bs s
  = set_sent (sent s ++ replicate (length bs)
                          (SendError FUNCTIONS_ERROR_STACK_OVERFLOW)) s.
Proof.
  revert s. induction bs as [|b bs IH]; intros s Hfull.
  - simpl. rewrite app_nil_r. destruct s; reflexivity.
  - change (pushes (b :: bs) s) with (pushes bs (push b s)).
    rewrite push_full by exact Hfull. rewrite IH by exact Hfull.
    unfold sendError, set_sent. simpl. rewrite <- app_assoc. reflexivity.
Qed.

(** X18: [pushArray] on a full stack drops the array.  For each of the [n]
    bytes one [FUNCTIONS_ERROR_STACK_OVERFLOW] is sent, the stack keeps its
    contents and its top index, and [execution] is moved behind the array
    all the same, so that the bytes of the array are not taken for function
    ids. *)
Theorem pushArray_full_stack (s : State) (n : Z) :
  parameterStackTop s = 128 ->
  to_byte (memory s (execution s)) = n ->
  execution s + 1 + n <= frameTop s ->
  sent (pushArray s)
  = sent s ++ replicate (Z.to_nat n) (SendError FUNCTIONS_ERROR_STACK_OVERFLOW)
  /\ parameterStack (pushArray s) = parameterStack s
  /\ parameterStackTop (pushArray s) = 128
  /\ execution (pushArray s) = execution s + 1 + n.
Proof.
  intros Hfull Hlength Hin.
  rewrite (pushArray_in_frame s n Hlength Hin).
  rewrite pushes_full by exact Hfull. simpl.
  rewrite length_fmap, length_reverse, length_seqZ.
  repeat split. exact Hfull.
Qed.

(** The full stack, with [execution] at the array 2, 0x10, 0x20. *)
Lemma pushArray_full_stack_witness :
  parameterStackTop
    (pushes (replicate 129 7) (set_frame 0 0 3 (initial (frame_memory [2; 16; 32] 0))))
  = 128
  /\ sent (pushArray (pushes (replicate 129 7)
                        (set_frame 0 0 3 (initial (frame_memory [2; 16; 32] 0)))))
     = [SendError FUNCTIONS_ERROR_STACK_OVERFLOW;
        SendError FUNCTIONS_ERROR_STACK_OVERFLOW]
  /\ execution (pushArray (pushes (replicate 129 7)
                             (set_frame 0 0 3 (initial (frame_memory [2; 16; 32] 0)))))
     = 3.
Proof.
  destruct (pushArray_full_stack
              (pushes (replicate 129 7)
                 (set_frame 0 0 3 (initial (frame_memory [2; 16; 32] 0)))) 2
              eq_refl eq_refl ltac:(vm_compute; discriminate)) as (H1 & _ & _ & H2).
  split; [reflexivity|]. split; [exact H1 | exact H2].
Defined.

(** ** More on the stack *)

(** X19: [push16] stores both bytes or none.  With two free cells it signals
    nothing and puts the high byte and on top of it the low byte; with fewer
    it sends one [FUNCTIONS_ERROR_STACK_OVERFLOW] and writes nothing, also
    when one cell is free and the high byte alone would have fitted. *)
Theorem push16_all_or_nothing (w : Z) (s : State) :
  stack_ok s ->
  (parameterStackTop s <= 126
   /\ sent (push16 w s) = sent s
   /\ stack_view (push16 w s)
      = to_int8 (Z.land w 255) :: to_int8 (Z.shiftr w 8) :: stack_view s)
  \/ (126 < parameterStackTop s
      /\ sent (push16 w s) = sent s ++ [SendError FUNCTIONS_ERROR_STACK_OVERFLOW]
      /\ parameterStack (push16 w s) = parameterStack s
      /\ parameterStackTop (push16 w s) = parameterStackTop s).
Proof.
  intros Hok. destruct (Z_le_gt_dec (parameterStackTop s) 126) as [Hroom|Hfull].
  - left. split; [exact Hroom|].
    destruct (pushes_room [Z.shiftr w 8; Z.land w 255] s Hok)
      as (stack & Heq & _ & Hview); [simpl; lia|].
    change (pushes [Z.shiftr w 8; Z.land w 255] s)
      with (push (Z.land w 255) (push (Z.shiftr w 8) s)) in *.
    rewrite <- push16_room in * by exact Hroom.
    split; [rewrite Heq; reflexivity | exact Hview].
  - right. rewrite push16_full by lia. repeat split. lia.
Qed.

Lemma push16_all_or_nothing_witness :
  stack_ok (pushes (replicate 128 7) (initial zero_memory))
  /\ parameterStackTop (pushes (replicate 128 7) (initial zero_memory)) = 127
  /\ parameterStackTop (push16 258 (pushes (replicate 128 7) (initial zero_memory)))
     = 127
  /\ sent (push16 258 (pushes (replicate 128 7) (initial zero_memory)))
     = [SendError FUNCTIONS_ERROR_STACK_OVERFLOW].
Proof.
  assert (Hok : stack_ok (pushes (replicate 128 7) (initial zero_memory)))
    by (split; [reflexivity | vm_compute; split; discriminate]).
  assert (Htop : parameterStackTop (pushes (replicate 128 7) (initial zero_memory))
                 = 127) by reflexivity.
  destruct (push16_all_or_nothing 258 _ Hok) as [(Hroom & _)|(_ & H1 & _ & H2)].
  - rewrite Htop in Hroom. lia.
  - split; [exact Hok|]. split; [exact Htop|].
    split; [rewrite H2; exact Htop | exact H1].
Defined.

Lemma pops_view (vs : list Z) :
  forall (s : State) (rest : list Z),
  stack_ok s -> stack_view s = vs ++ rest ->
  pops (length vs) s
  = (vs, set_stack (parameterStackTop s - Z.of_nat (length vs)) (parameterStack s) s).
Proof.
  induction vs as [|v vs IH]; intros s rest Hok Hview.
  - simpl. rewrite Z.sub_0_r. destruct s; reflexivity.
  - simpl length. cbn [pops].
    destruct (pop_view s v (vs ++ rest) Hok Hview) as (Hpop & Hok1 & Hview1).
    rewrite Hpop in *. simpl in Hok1, Hview1.
    rewrite (IH _ rest Hok1 Hview1). unfold set_stack. simpl.
    do 2 f_equal. lia.
Qed.

(** X20: last in, first out.  After a run of pushes that fits, as many pops
    return the values pushed, the last one first, each as the [int8_t] it
    was stored as; nothing is sent and the stack is as before the run. *)
Theorem pushes_then_pops (bs : list Z) (s : State) :
  stack_ok s ->
  parameterStackTop s + Z.of_nat (length bs) <= 128 ->
  fst (pops (length bs) (pushes bs s)) = reverse (to_int8 <$> bs)
  /\ sent (snd (pops (length bs) (pushes bs s))) = sent s
  /\ parameterStackTop (snd (pops (length bs) (pushes bs s))) = parameterStackTop s
  /\ stack_view (snd (pops (length bs) (pushes bs s))) = stack_view s.
Proof.
  intros Hok Hroom.
  destruct (pushes_room bs s Hok Hroom) as (stack & Heq & Hok1 & Hview).
  assert (Hlen : length (reverse (to_int8 <$> bs)) = length bs)
    by (rewrite length_reverse, length_fmap; reflexivity).
  pose proof (pops_view (reverse (to_int8 <$> bs)) _ _ Hok1 Hview) as Hpops.
  pose proof (stack_view_drop (reverse (to_int8 <$> bs)) _ _ Hok1 Hview) as Hdrop.
  rewrite Hlen in Hpops, Hdrop. rewrite Hpops. simpl.
  split; [reflexivity|]. split; [rewrite Heq; reflexivity|].
  split; [rewrite Heq; simpl; lia | exact Hdrop].
Qed.

Lemma pushes_then_pops_witness :
  stack_ok (initial zero_memory)
  /\ parameterStackTop (initial zero_memory) + Z.of_nat (length [1; 2; 200]) <= 128
  /\ fst (pops (length [1; 2; 200]) (pushes [1; 2; 200] (initial zero_memory)))
     = [-56; 2; 1].
Proof.
  assert (Hok : stack_ok (initial zero_memory)) by apply stack_ok_initial.
  assert (Hroom : parameterStackTop (initial zero_memory)
                  + Z.of_nat (length [1; 2; 200]) <= 128) by (simpl; lia).
  destruct (pushes_then_pops [1; 2; 200] (initial zero_memory) Hok Hroom) as (H1 & _).
  split; [exact Hok|]. split; [exact Hroom | exact H1].
Defined.

(** ** Frames *)




(** X22: a frame that sends its own bytes back.  The frame PushArray,
    [n + 1], [n], [n] data bytes, SendResponseCount, run by [frameReceived]
    on a stack with [n + 1] free cells, makes two calls of [run], for the
    first and for the last byte, and sends one response frame that carries
    the sequence number of the frame, the length [n] and the [n] data bytes
    in their order; the loop ends behind the frame and the stack is as it
    was. *)
Theorem frameReceived_echo (tag : Z) (native : nat -> State -> State) (fuel : nat)
    (sequence frame n pushArrayId sendResponseCountId : Z) (s : State) :
  stack_ok s -> 0 <= n <= 127 ->
  to_byte (memory s frame) = pushArrayId ->
  aget None (vtable s) pushArrayId = Some FnPushArray ->
  to_byte (memory s (frame + 1)) = n + 1 ->
  to_byte (memory s (frame + 2)) = n ->
  to_byte (memory s (frame + 3 + n)) = sendResponseCountId ->
  aget None (vtable s) sendResponseCountId = Some FnSendResponseCount ->
  parameterStackTop s + n + 1 <= 128 ->
  (3 <= fuel)%nat ->
  exists s',
    frameReceived tag native fuel sequence (n + 4) frame s
    = Some ([(frame, pushArrayId); (frame + 3 + n, sendResponseCountId)], s')
    /\ sent s'
       = sent s ++ [SendFrame ([tag; sequence; n]
                               ++ ((fun k => to_byte (memory s (frame + 3 + k)))
                                     <$> seqZ 0 n))]
    /\ stack_view s' = stack_view s
    /\ execution s' = frame + (n + 4).
Proof.
  intros Hok Hn Hpa Hvpa Hlength Hcount Hsrc Hvsrc Hroom Hfuel.
  destruct fuel as [|[|[|fuel]]]; try lia.
  unfold frameReceived.
  (* the first turn: PushArray *)
  rewrite frameReceived_loop_step by (simpl; lia).
  cbn [memory execution reads set_frame]. rewrite Hpa.
  set (s1 := set_execution (frame + 1)
               (set_reads (reads s ++ [frame])
                  (set_frame frame sequence (frame + (n + 4)) s))).
  assert (Hok1 : stack_ok s1) by exact Hok.
  assert (Hrun1 : run tag native pushArrayId s1 = pushArray s1).
  { unfold run. change (vtable s1) with (vtable s). rewrite Hvpa. reflexivity. }
  rewrite Hrun1.
  set (bytes := (fun k => to_byte (memory s (frame + 1 + 1 + k)))
                  <$> reverse (seqZ 0 (n + 1))).
  assert (Hlen : Z.of_nat (length bytes) = n + 1).
  { unfold bytes. rewrite length_fmap, length_reverse, length_seqZ. lia. }
  destruct (pushes_room bytes s1 Hok1) as (stack & Heq & Hok2 & Hview);
    [change (parameterStackTop s1) with (parameterStackTop s); lia|].
  change (parameterStackTop s1) with (parameterStackTop s) in Heq.
  assert (Harray : pushArray s1
                   = set_execution (frame + 1 + 1 + (n + 1))
                       (set_reads (reads s1 ++ frame + 1
                                   :: ((fun k => frame + 1 + 1 + k)
                                         <$> reverse (seqZ 0 (n + 1))))
                          (set_stack (parameterStackTop s + Z.of_nat (length bytes))
                             stack s1))).
  { rewrite (pushArray_in_frame s1 (n + 1)); [|exact Hlength | simpl; lia].
    change (execution s1) with (frame + 1). change (memory s1) with (memory s).
    fold bytes. rewrite Heq. reflexivity. }
  rewrite Harray.
  assert (Hview2 : stack_view (set_stack (parameterStackTop s + Z.of_nat (length bytes))
                                 stack s1)
                   = n :: ((fun k => to_int8 (memory s (frame + 3 + k))) <$> seqZ 0 n)
                          ++ stack_view s).
  { rewrite <- Heq, Hview. change (stack_view s1) with (stack_view s).
    unfold bytes. rewrite <- !list_fmap_compose, <- fmap_reverse, reverse_involutive.
    rewrite seqZ_cons by lia. rewrite fmap_cons. simpl.
    replace (Z.pred (n + 1)) with n by lia.
    replace (frame + 1 + 1 + 0) with (frame + 2) by lia.
    rewrite Hcount, (to_int8_id n) by (unfold is_int8; lia).
    f_equal.
    replace (seqZ (Z.succ 0) n) with (Z.add 1 <$> seqZ 0 n)
      by (rewrite fmap_add_seqZ; reflexivity).
    rewrite <- list_fmap_compose. f_equal.
    apply list_fmap_ext. intros i k _. simpl. rewrite to_int8_to_byte.
    do 2 f_equal. lia. }
  (* the second turn: SendResponseCount *)
  rewrite frameReceived_loop_step by (simpl; lia).
  cbn [memory execution reads set_execution set_reads set_stack set_frame].
  change (memory s1) with (memory s).
  replace (frame + 1 + 1 + (n + 1)) with (frame + 3 + n) by lia.
  rewrite Hsrc.
  match goal with
  | |- context [run tag native sendResponseCountId ?st] => set (s3 := st)
  end.
  assert (Hrun3 : run tag native sendResponseCountId s3 = sendResponseCount tag s3).
  { unfold run. change (vtable s3) with (vtable s). rewrite Hvsrc. reflexivity. }
  rewrite Hrun3.
  assert (Hok3 : stack_ok s3) by (rewrite Heq in Hok2; exact Hok2).
  assert (Hview3 : stack_view s3
                   = n :: ((fun k => to_int8 (memory s (frame + 3 + k))) <$> seqZ 0 n)
                          ++ stack_view s) by exact Hview2.
  destruct (sendResponseCount_view tag s3 n _ _ Hok3 Hview3) as (Hsend & Hrest);
    [lia | rewrite length_fmap, length_seqZ; lia |].
  (* the loop is left *)
  rewrite frameReceived_loop_done by (rewrite Hsend; simpl; lia).
  eexists. split; [reflexivity|]. split; [|split; [exact Hrest|]].
  - rewrite Hsend. simpl. do 6 f_equal.
    rewrite <- ?list_fmap_compose. apply list_fmap_ext. intros i k _. simpl.
    apply to_byte_to_int8.
  - rewrite Hsend. simpl. lia.
Qed.

(** The frame PushArray, 3, 2, 0x41, 0x42, SendResponseCount with the ids 1
    and 3, received with sequence number 9. *)
Lemma frameReceived_echo_witness :
  stack_ok (setup 1 0 2 3 (frame_memory [1; 3; 2; 65; 66; 3] 0))
  /\ 0 <= 2 <= 127
  /\ (3 <= 3)%nat
  /\ exists s',
       frameReceived example_tag no_natives 3 9 (2 + 4) 0
         (setup 1 0 2 3 (frame_memory [1; 3; 2; 65; 66; 3] 0))
       = Some ([(0, 1); (0 + 3 + 2, 3)], s')
       /\ sent s' = [SendFrame [125; 9; 2; 65; 66]].
Proof.
  assert (Hok : stack_ok (setup 1 0 2 3 (frame_memory [1; 3; 2; 65; 66; 3] 0)))
    by (split; simpl; [reflexivity | lia]).
  assert (Hn : 0 <= 2 <= 127) by lia.
  assert (Hfuel : (3 <= 3)%nat) by lia.
  destruct (frameReceived_echo example_tag no_natives 3 9 0 2 1 3
              (setup 1 0 2 3 (frame_memory [1; 3; 2; 65; 66; 3] 0))
              Hok Hn eq_refl eq_refl eq_refl eq_refl eq_refl eq_refl
              ltac:(simpl; lia) Hfuel) as (s' & H1 & H2 & _).
  split; [exact Hok|]. split; [exact Hn|]. split; [exact Hfuel|].
  exists s'. split; [exact H1 | exact H2].
Defined.

(** ** The registry after a run of [bind] calls *)

(** X23: the registry lists every interface once.  After a run of at most
    251 [bind] calls for at most 25 interfaces on the state [setup] leaves,
    the first [indexOfInterfaces] cells of [interfaceIds] hold exactly the
    interface ids that were passed to [bind], none of them twice. *)
Theorem binds_registry_unique (pushArrayId queryInterfaceId sendResponseId
    sendResponseCountId : Z) (mem : Z -> Z) (calls : list (string * Fn)) :
  (length calls <= 251)%nat ->
  (length (remove_dups (fst <$> calls)) <= 25)%nat ->
  NoDup (take (Z.to_nat (indexOfInterfaces
                           (binds calls (setup pushArrayId queryInterfaceId
                                           sendResponseId sendResponseCountId mem))))
           (interfaceIds (binds calls (setup pushArrayId queryInterfaceId
                                         sendResponseId sendResponseCountId mem))))
  /\ (forall x,
        x ∈ take (Z.to_nat (indexOfInterfaces
                              (binds calls (setup pushArrayId queryInterfaceId
                                              sendResponseId sendResponseCountId mem))))
              (interfaceIds (binds calls (setup pushArrayId queryInterfaceId
                                            sendResponseId sendResponseCountId mem)))
        <-> x ∈ (fst <$> calls))
  /\ (forall x, x ∈ (fst <$> calls) ->
        knownInterface x (binds calls (setup pushArrayId queryInterfaceId
                                         sendResponseId sendResponseCountId mem))
        = true).
Proof.
  intros Hn Hdistinct.
  set (s0 := setup pushArrayId queryInterfaceId sendResponseId sendResponseCountId mem).
  assert (Hreg : registry_ok s0 []) by (repeat split; simpl; lia).
  destruct (binds_registry calls s0 [] Hreg) as (seen & Hreg' & Hnd & Hel & _).
  - apply NoDup_nil. exact I.
  - simpl. lia.
  - simpl. lia.
  - exact Hdistinct.
  - pose proof Hreg' as (_ & _ & Hidx & Htake & _).
    rewrite Hidx, Nat2Z.id, Htake.
    split; [exact Hnd|]. split.
    + intros x. rewrite Hel, elem_of_nil. tauto.
    + intros x Hx. apply (knownInterface_seen _ _ _ Hreg'), Hel. right. exact Hx.
Qed.

Lemma binds_registry_unique_witness :
  (length two_interfaces <= 251)%nat
  /\ (length (remove_dups (fst <$> two_interfaces)) <= 25)%nat
  /\ NoDup (take (Z.to_nat (indexOfInterfaces
                              (binds two_interfaces (setup 1 0 2 3 zero_memory))))
              (interfaceIds (binds two_interfaces (setup 1 0 2 3 zero_memory)))).
Proof.
  assert (Hn : (length two_interfaces <= 251)%nat) by (simpl; lia).
  assert (Hd : (length (remove_dups (fst <$> two_interfaces)) <= 25)%nat)
    by (vm_compute; lia).
  destruct (binds_registry_unique 1 0 2 3 zero_memory two_interfaces Hn Hd) as (H1 & _).
  split; [exact Hn|]. split; [exact Hd | exact H1].
Defined.

(** ** More interfaces than the stack can list *)





